(** * Verification of the broker-statement importer of gelbermats/rebalancer

    Shallow embedding of
    - [src/app/modules/importer/models.py]  (SecurityPosition, BrokerStatement),
    - [src/app/modules/importer/service.py] (BrokerStatementParser, ImportService),
    - [src/utils/merge_csv_tables.py]       (find_table_sections, extract_table_data,
                                             merge_csv_tables).

    A Python [str] is modelled as its list of Unicode code points ([text]).
    Literals are written as UTF-8 Rocq strings and decoded by [u]. A pandas
    DataFrame is a list of rows; a row is a list of cells, a cell is
    [None] for NaN and [Some s] for a text cell.  A column index beyond a
    row's list reads NaN (the DataFrame pads short rows with NaN). *)

From Stdlib Require Import String Ascii List Bool Arith Lia NArith ZArith.
Import ListNotations.

(** ** Python text *)

Definition text := list N.

(** UTF-8 decoding of a Rocq string literal into code points (1 to 3 byte
    sequences, which cover every literal used in the source). *)
Fixpoint utf8_decode (fuel : nat) (bs : list N) : text :=
  match fuel with
  | O => []
  | S fuel' =>
    match bs with
    | [] => []
    | b0 :: rest =>
      if (b0 <? 128)%N then b0 :: utf8_decode fuel' rest
      else if (b0 <? 224)%N then
        match rest with
        | b1 :: rest' =>
          (N.land b0 31 * 64 + N.land b1 63)%N :: utf8_decode fuel' rest'
        | [] => []
        end
      else
        match rest with
        | b1 :: b2 :: rest' =>
          (N.land b0 15 * 4096 + N.land b1 63 * 64 + N.land b2 63)%N
            :: utf8_decode fuel' rest'
        | _ => []
        end
    end
  end.

Definition bytes_of (s : string) : list N :=
  map (fun c => N_of_ascii c) (list_ascii_of_string s).

Definition u (s : string) : text :=
  let bs := bytes_of s in utf8_decode (List.length bs) bs.

Example u_cyrillic : u "ПИФ" = [1055; 1048; 1060]%N.
Proof. reflexivity. Qed.

Open Scope N_scope.

(** Characters for which Python's [str.isspace] holds (also the class [\s]
    of a [str] regex, and what [str.strip()] removes). *)
Definition is_space (c : N) : bool :=
  ((9 <=? c) && (c <=? 13)) || ((28 <=? c) && (c <=? 32)) || (c =? 133)
  || (c =? 160) || (c =? 5760) || ((8192 <=? c) && (c <=? 8202))
  || (c =? 8232) || (c =? 8233) || (c =? 8239) || (c =? 8287) || (c =? 12288).

Fixpoint text_eqb (a b : text) : bool :=
  match a, b with
  | [], [] => true
  | x :: a', y :: b' => (x =? y) && text_eqb a' b'
  | _, _ => false
  end.

(** [s.startswith(p)] *)
Fixpoint startswith (s p : text) : bool :=
  match p, s with
  | [], _ => true
  | x :: p', y :: s' => (x =? y) && startswith s' p'
  | _ :: _, [] => false
  end.

(** [s.endswith(p)] *)
Definition endswith (s p : text) : bool := startswith (rev s) (rev p).

(** [p in s] *)
Fixpoint contains (p s : text) : bool :=
  startswith s p || match s with [] => false | _ :: s' => contains p s' end.

Fixpoint lstrip (s : text) : text :=
  match s with
  | [] => []
  | c :: s' => if is_space c then lstrip s' else s
  end.

(** [s.strip()] *)
Definition strip (s : text) : text := rev (lstrip (rev (lstrip s))).

(** [re.sub(r'\s+', '', s)] *)
Definition remove_ws (s : text) : text := filter (fun c => negb (is_space c)) s.

(** [str.lower] on one code point: ASCII and Latin-1 capitals, and the
    Cyrillic capitals U+0400..U+042F (the scripts of the statements); other
    code points are left unchanged by this model. *)
Definition lower_char (c : N) : N :=
  if (65 <=? c) && (c <=? 90) then c + 32
  else if (192 <=? c) && (c <=? 222) && negb (c =? 215) then c + 32
  else if (1024 <=? c) && (c <=? 1039) then c + 80
  else if (1040 <=? c) && (c <=? 1071) then c + 32
  else c.

Definition lower (s : text) : text := map lower_char s.

(** The character tables below are those of Python 3.11's [unicodedata]
    (Unicode 14.0.0).  [c] is in one of the closed ranges [(lo, hi)]. *)
Definition in_ranges (rs : list (N * N)) (c : N) : bool :=
  existsb (fun r => (fst r <=? c) && (c <=? snd r)) rs.

(** The first code point of each block of ten decimal digits (general
    category Nd, [str.isdecimal]); every such block holds the digits 0..9
    in order. *)
Definition nd_block_starts : list N :=
[
   48; 1632; 1776; 1984; 2406; 2534; 2662; 2790; 2918; 3046;
   3174; 3302; 3430; 3558; 3664; 3792; 3872; 4160; 4240; 6112;
   6160; 6470; 6608; 6784; 6800; 6992; 7088; 7232; 7248; 42528;
   43216; 43264; 43472; 43504; 43600; 44016; 65296; 66720; 68912; 69734;
   69872; 69942; 70096; 70384; 70736; 70864; 71248; 71360; 71472; 71904;
   72016; 72784; 73040; 73120; 92768; 92864; 93008; 120782; 120792; 120802;
   120812; 120822; 123200; 123632; 125264; 130032].

(** The value of a decimal digit, as [int] reads it. *)
Definition decimal_value (c : N) : option N :=
  match find (fun z => (z <=? c) && (c <? z + 10)) nd_block_starts with
  | Some z => Some (c - z)
  | None => None
  end.

(** The code points with [str.isdigit] (Numeric_Type Decimal or Digit):
    the decimal digits and the other digits (superscripts, subscripts,
    circled digits, ...). *)
Definition digit_ranges : list (N * N) :=
[
   (48, 57); (178, 179); (185, 185); (1632, 1641); (1776, 1785);
   (1984, 1993); (2406, 2415); (2534, 2543); (2662, 2671); (2790, 2799);
   (2918, 2927); (3046, 3055); (3174, 3183); (3302, 3311); (3430, 3439);
   (3558, 3567); (3664, 3673); (3792, 3801); (3872, 3881); (4160, 4169);
   (4240, 4249); (4969, 4977); (6112, 6121); (6160, 6169); (6470, 6479);
   (6608, 6618); (6784, 6793); (6800, 6809); (6992, 7001); (7088, 7097);
   (7232, 7241); (7248, 7257); (8304, 8304); (8308, 8313); (8320, 8329);
   (9312, 9320); (9332, 9340); (9352, 9360); (9450, 9450); (9461, 9469);
   (9471, 9471); (10102, 10110); (10112, 10120); (10122, 10130); (42528, 42537);
   (43216, 43225); (43264, 43273); (43472, 43481); (43504, 43513); (43600, 43609);
   (44016, 44025); (65296, 65305); (66720, 66729); (68160, 68163); (68912, 68921);
   (69216, 69224); (69714, 69722); (69734, 69743); (69872, 69881); (69942, 69951);
   (70096, 70105); (70384, 70393); (70736, 70745); (70864, 70873); (71248, 71257);
   (71360, 71369); (71472, 71481); (71904, 71913); (72016, 72025); (72784, 72793);
   (73040, 73049); (73120, 73129); (92768, 92777); (92864, 92873); (93008, 93017);
   (120782, 120831); (123200, 123209); (123632, 123641); (125264, 125273); (127232, 127242);
   (130032, 130041)].

Definition is_digit_char (c : N) : bool := in_ranges digit_ranges c.

(** [s.isdigit()]: non-empty and every character a digit. *)
Definition isdigit (s : text) : bool :=
  match s with [] => false | _ => forallb is_digit_char s end.

(** [int(s)] on a string without sign, blanks or underscores, read digit
    by digit; [None] is the [ValueError] raised when a character is not a
    decimal digit. *)
Fixpoint int_acc (acc : N) (s : text) : option N :=
  match s with
  | [] => Some acc
  | c :: s' =>
    match decimal_value c with
    | Some d => int_acc (acc * 10 + d) s'
    | None => None
    end
  end.

(** [sys.get_int_max_str_digits()] by default: [int] of a decimal string
    of more digits (leading zeros included) raises [ValueError]. *)
Definition max_str_digits : nat := 4300.

Definition py_int (s : text) : option N :=
  match s with
  | [] => None
  | _ => if Nat.ltb max_str_digits (List.length s) then None else int_acc 0 s
  end.

Close Scope N_scope.

Example strip_ex : strip (u "  Сбер ") = u "Сбер".
Proof. reflexivity. Qed.
Example lower_ex : lower (u "ПИФ") = u "пиф".
Proof. reflexivity. Qed.
Example int_ex : py_int (u "1234") = Some 1234%N.
Proof. reflexivity. Qed.
Example int_thai_digit : isdigit [3669%N] = true /\ py_int [3669%N] = Some 5%N.
Proof. vm_compute. split; reflexivity. Qed.
Example int_too_many_digits : py_int (repeat 49%N 4301) = None /\ py_int (repeat 49%N 4300) <> None.
Proof. split; vm_compute; [reflexivity | discriminate]. Qed.

(** ** Cells, rows and the DataFrame *)

Definition cell := option text.
Definition row := list cell.
Definition grid := list row.

(** [row.iloc[k]]: a column beyond the row's list reads NaN. *)
Definition cell_at (r : row) (k : nat) : cell := nth k r None.

(** [str(x)] of a cell: NaN prints as ["nan"]. *)
Definition py_str (c : cell) : text :=
  match c with Some s => s | None => u "nan" end.

(** [pd.isna(x)] *)
Definition isna (c : cell) : bool :=
  match c with None => true | Some _ => false end.

(** ** models.py *)

Record SecurityPosition := {
  issuer : text;
  security_type : text;
  trading_code : text;
  isin : text;
  currency : option text;
  quantity : N
}.

Definition is_bond (p : SecurityPosition) : bool :=
  contains (u "облигац") (lower (security_type p)).

Definition is_stock (p : SecurityPosition) : bool :=
  contains (u "акц") (lower (security_type p)).

Definition is_etf (p : SecurityPosition) : bool :=
  text_eqb (lower (security_type p)) (u "пиф").

Record BrokerStatement := {
  account_number : text;
  positions : list SecurityPosition;
  statement_date : option text
}.

Definition bonds (s : BrokerStatement) := filter is_bond (positions s).
Definition stocks (s : BrokerStatement) := filter is_stock (positions s).
Definition etfs (s : BrokerStatement) := filter is_etf (positions s).
Definition total_positions (s : BrokerStatement) : nat := length (positions s).

(** ** BrokerStatementParser._create_position_from_row *)

(** [str(row_data.iloc[k]).strip() if len(row_data) > k and not
    pd.isna(row_data.iloc[k]) else default]; with NaN padding the length
    test and the NaN test are one test. *)
Definition field (r : row) (k : nat) (default : text) : text :=
  match cell_at r k with Some s => strip s | None => default end.

(** The quantity: [re.sub(r'\s+', '', quantity_str)], then
    [int(quantity_str) if quantity_str.isdigit() else 0];
    [None] is the [ValueError] of [int]. *)
Definition parse_quantity (quantity_str : text) : option N :=
  let q := remove_ws quantity_str in
  if isdigit q then py_int q else Some 0%N.

(** [None] is the [return None] of the validation and of the [except]. *)
Definition create_position_from_row (r : row) : option SecurityPosition :=
  let issuer0 := field r 0 [] in
  let security_type0 := field r 1 [] in
  let trading_code0 := field r 2 [] in
  let isin0 := field r 3 [] in
  let currency0 := match cell_at r 4 with Some s => Some (strip s) | None => None end in
  match parse_quantity (field r 5 (u "0")) with
  | None => None
  | Some q =>
    if text_eqb issuer0 [] || text_eqb isin0 [] || (q <=? 0)%N then None
    else Some {| issuer := issuer0; security_type := security_type0;
                 trading_code := trading_code0; isin := isin0;
                 currency := match currency0 with
                             | Some c => if text_eqb c [] || text_eqb c (u "nan")
                                         then None else Some c
                             | None => None
                             end;
                 quantity := q |}
  end.

(** ** ImportService.validate_statement *)

Record ValidationSummary := {
  valid : bool;
  vs_account_number : text;
  vs_total_positions : nat;
  vs_bonds : nat;
  vs_stocks : nat;
  vs_etfs : nat
}.

Definition validate_statement (s : BrokerStatement) : ValidationSummary :=
  {| valid := true;
     vs_account_number := account_number s;
     vs_total_positions := total_positions s;
     vs_bonds := length (bonds s);
     vs_stocks := length (stocks s);
     vs_etfs := length (etfs s) |}.

Definition sber_row : row :=
  [Some (u "Сбер"); Some (u "Обычная акция"); Some (u "SBER03");
   Some (u "RU0009029540"); None; Some (u "100")].

Example sber_ok :
  option_map quantity (create_position_from_row sber_row) = Some 100%N.
Proof. reflexivity. Qed.

(** ** merge_csv_tables.find_table_sections *)

(** [str(x) if pd.notna(x) else ""] *)
Definition loc_text (c : cell) : text :=
  match c with Some s => s | None => [] end.

(** The first cell of a row, [row.iloc[0]], and of row [j], [df.iloc[j, 0]]. *)
Definition first_text (r : row) : text := loc_text (cell_at r 0).
Definition first_text_at (g : grid) (j : nat) : text := first_text (nth j g []).

Definition header_pattern : text := u "Эмитент".
Definition unknown_label : text := u "Unknown".

(** If [s] starts and ends with the double-quote character: [s = s[1:-1]]. *)
Definition strip_quotes (s : text) : text :=
  if startswith s [34%N] && endswith s [34%N]
  then firstn (length s - 2) (tl s) else s.

(** The test of the backward window: [prev_cell and not
    prev_cell.startswith("Эмитент") and not prev_cell.startswith("Итого")
    and len(prev_cell.strip()) > 0 and prev_cell.strip() != ""]. *)
Definition window_candidate (prev_cell : text) : bool :=
  negb (text_eqb prev_cell []) && negb (startswith prev_cell (u "Эмитент"))
  && negb (startswith prev_cell (u "Итого"))
  && negb (text_eqb (strip prev_cell) []) && negb (text_eqb (strip prev_cell) []).

(** The section name chosen for a header marker in row [i]. *)
Definition infer_label (g : grid) (i : nat) : text :=
  if 0 <? i then
    let prev_cell := first_text_at g (i - 1) in
    if negb (text_eqb prev_cell []) && negb (text_eqb (strip prev_cell) [])
    then strip_quotes (strip prev_cell)
    else
      (* for j in range(max(0, i-3), i) *)
      match find (fun j => window_candidate (first_text_at g j))
                 (seq (i - 3) (i - (i - 3))) with
      | Some j => strip_quotes (strip (first_text_at g j))
      | None => unknown_label
      end
  else unknown_label.

Record span := mk_span { label : text; start_row : nat; end_row : nat }.

(** [sections] and the pair [(current_section, current_start)], which are
    [None] together. *)
Record lstate := mk_lstate { secs : list span; cur : option (text * nat) }.

Definition lstate0 : lstate := mk_lstate [] None.

Definition is_terminator (cell_value : text) : bool :=
  contains (u "Итого по разделу") cell_value || contains (u "Итого по счету") cell_value.

(** [sections.append((current_section, current_start, i-1))] when a
    section is open. *)
Definition close_current (st : lstate) (i : nat) : list span :=
  match cur st with
  | Some (l, s) => secs st ++ [mk_span l s (i - 1)]
  | None => secs st
  end.

(** One iteration of [for i, row in df.iterrows()]. *)
Definition locator_step (g : grid) (st : lstate) (i : nat) (r : row) : lstate :=
  let cell_value := first_text r in
  if text_eqb cell_value header_pattern then
    mk_lstate (close_current st i) (Some (infer_label g i, S i))
  else if is_terminator cell_value then
    match cur st with
    | Some _ => mk_lstate (close_current st i) None
    | None => st
    end
  else st.

Fixpoint scan (g : grid) (rs : list row) (i : nat) (st : lstate) : lstate :=
  match rs with
  | [] => st
  | r :: rs' => scan g rs' (S i) (locator_step g st i r)
  end.

(** The backward search for the last data row of the open section. *)
Definition data_row_value (row_value : text) : bool :=
  negb (text_eqb row_value []) && negb (startswith row_value (u "Итого"))
  && negb (startswith row_value (u "Дата составления"))
  && negb (text_eqb (strip row_value) []).

Definition last_data_row (g : grid) (s : nat) : nat :=
  (* for j in range(len(df) - 1, current_start - 1, -1) *)
  match find (fun j => data_row_value (first_text_at g j))
             (rev (seq s (length g - s))) with
  | Some j => j
  | None => length g - 1
  end.

Definition finish (g : grid) (st : lstate) : list span :=
  match cur st with
  | Some (l, s) => secs st ++ [mk_span l s (last_data_row g s)]
  | None => secs st
  end.

Definition find_table_sections (g : grid) : list span :=
  finish g (scan g g 0 lstate0).

Definition txt (s : string) : cell := Some (u s).

Example sections_ex :
  find_table_sections
    [[txt "Отчет"]; [txt "Облигации"]; [txt "Эмитент"; txt "ISIN"];
     [txt "A"; txt "1"]; [txt "Итого по разделу"]; [None];
     [txt "Эмитент"]; [txt "B"]; [None]]
  = [mk_span (u "Облигации") 3 3; mk_span (u "A") 7 7].
Proof. reflexivity. Qed.

(** ** BrokerStatementParser: section search *)

(** [for i, row in df.iterrows(): for cell in row:
       if isinstance(cell, str) and text in cell: return i] *)
Definition row_has_text (t : text) (r : row) : bool :=
  existsb (fun c => match c with Some s => contains t s | None => false end) r.

Fixpoint find_row_from (p : row -> bool) (rs : list row) (i : nat) : option nat :=
  match rs with
  | [] => None
  | r :: rs' => if p r then Some i else find_row_from p rs' (S i)
  end.

Definition find_section_start (g : grid) (section_name : text) : option nat :=
  find_row_from (row_has_text section_name) g 0.

Definition find_row_with_text (g : grid) (t : text) : option nat :=
  find_row_from (row_has_text t) g 0.

(** The three exits of the loop of [_find_section_end]: an all-NaN row, a
    first cell containing ["Итого"], a first cell containing the section
    title. *)
Definition section_end_row (r : row) : bool :=
  forallb isna r
  || contains (u "Итого") (py_str (cell_at r 0))
  || contains (u "Сведения о ценных бумагах") (py_str (cell_at r 0)).

Definition find_section_end (g : grid) (start_row : nat) : nat :=
  match find (fun i => section_end_row (nth i g []))
             (seq start_row (length g - start_row)) with
  | Some i => i
  | None => length g
  end.

(** ** BrokerStatementParser._extract_bonds *)

(** [pd.isna(row_data.iloc[0]) or 'Эмитент' in str(row_data.iloc[0])] *)
Definition skip_row (r : row) : bool :=
  isna (cell_at r 0) || contains header_pattern (py_str (cell_at r 0)).

(** [security_type = str(row_data.iloc[1]) if len(row_data) > 1 else '']:
    a missing column reads NaN here, printed ["nan"] instead of [''];
    neither contains ["облигац"]. *)
Fixpoint bond_rows (g : grid) (idx : list nat) : list SecurityPosition :=
  match idx with
  | [] => []
  | i :: idx' =>
    let r := nth i g [] in
    if skip_row r then bond_rows g idx'
    else if negb (contains (u "облигац") (lower (py_str (cell_at r 1))))
    then bond_rows g idx'
    else match create_position_from_row r with
         | Some p => p :: bond_rows g idx'
         | None => bond_rows g idx'
         end
  end.

Definition extract_bonds (g : grid) : list SecurityPosition :=
  match find_section_start g (u "Сведения о ценных бумагах") with
  | None => []
  | Some start_row =>
    let end_row := find_section_end g (start_row + 2) in
    bond_rows g (seq (S start_row) (end_row - S start_row))
  end.

(** ** BrokerStatementParser._extract_stocks_and_etfs *)

Fixpoint stock_rows (g : grid) (idx : list nat) : list SecurityPosition :=
  match idx with
  | [] => []
  | i :: idx' =>
    let r := nth i g [] in
    if skip_row r then stock_rows g idx'
    else if contains (u "Итого") (py_str (cell_at r 0)) then []   (* break *)
    else match create_position_from_row r with
         | Some p => p :: stock_rows g idx'
         | None => stock_rows g idx'
         end
  end.

(** The first row scanned, [start_row + 1]; on the fallback path
    [start_row] is the found row minus one, so [start_row + 1] is that row
    (also when it is row 0 and [start_row] is -1). *)
Definition stocks_first_row (g : grid) : option nat :=
  match find_section_start g (u "Сведения о ценных бумагах, Classica") with
  | Some start_row => Some (S start_row)
  | None =>
    match find_row_with_text g (u "Advanced Micro Devices") with
    | Some r => Some r
    | None => None
    end
  end.

Definition extract_stocks_and_etfs (g : grid) : list SecurityPosition :=
  match stocks_first_row g with
  | None => []
  | Some first => stock_rows g (seq first (length g - first))
  end.

Definition extract_positions (g : grid) : list SecurityPosition :=
  extract_bonds g ++ extract_stocks_and_etfs g.

(** ** BrokerStatementParser._extract_account_number *)

(** The code points with [str.isalnum] (letters, categories L*, and the
    characters with a numeric value). *)
Definition alnum_ranges : list (N * N) :=
([
   (48, 57); (65, 90); (97, 122); (170, 170); (178, 179);
   (181, 181); (185, 186); (188, 190); (192, 214); (216, 246);
   (248, 705); (710, 721); (736, 740); (748, 748); (750, 750);
   (880, 884); (886, 887); (890, 893); (895, 895); (902, 902);
   (904, 906); (908, 908); (910, 929); (931, 1013); (1015, 1153);
   (1162, 1327); (1329, 1366); (1369, 1369); (1376, 1416); (1488, 1514);
   (1519, 1522); (1568, 1610); (1632, 1641); (1646, 1647); (1649, 1747);
   (1749, 1749); (1765, 1766); (1774, 1788); (1791, 1791); (1808, 1808);
   (1810, 1839); (1869, 1957); (1969, 1969); (1984, 2026); (2036, 2037);
   (2042, 2042); (2048, 2069); (2074, 2074); (2084, 2084); (2088, 2088);
   (2112, 2136); (2144, 2154); (2160, 2183); (2185, 2190); (2208, 2249);
   (2308, 2361); (2365, 2365); (2384, 2384); (2392, 2401); (2406, 2415);
   (2417, 2432); (2437, 2444); (2447, 2448); (2451, 2472); (2474, 2480);
   (2482, 2482); (2486, 2489); (2493, 2493); (2510, 2510); (2524, 2525);
   (2527, 2529); (2534, 2545); (2548, 2553); (2556, 2556); (2565, 2570);
   (2575, 2576); (2579, 2600); (2602, 2608); (2610, 2611); (2613, 2614);
   (2616, 2617); (2649, 2652); (2654, 2654); (2662, 2671); (2674, 2676);
   (2693, 2701); (2703, 2705); (2707, 2728); (2730, 2736); (2738, 2739);
   (2741, 2745); (2749, 2749); (2768, 2768); (2784, 2785); (2790, 2799);
   (2809, 2809); (2821, 2828); (2831, 2832); (2835, 2856); (2858, 2864);
   (2866, 2867); (2869, 2873); (2877, 2877); (2908, 2909); (2911, 2913);
   (2918, 2927); (2929, 2935); (2947, 2947); (2949, 2954); (2958, 2960);
   (2962, 2965); (2969, 2970); (2972, 2972); (2974, 2975); (2979, 2980);
   (2984, 2986); (2990, 3001); (3024, 3024); (3046, 3058); (3077, 3084);
   (3086, 3088); (3090, 3112); (3114, 3129); (3133, 3133); (3160, 3162);
   (3165, 3165); (3168, 3169); (3174, 3183); (3192, 3198); (3200, 3200);
   (3205, 3212); (3214, 3216); (3218, 3240); (3242, 3251); (3253, 3257);
   (3261, 3261); (3293, 3294); (3296, 3297); (3302, 3311); (3313, 3314);
   (3332, 3340); (3342, 3344); (3346, 3386); (3389, 3389); (3406, 3406);
   (3412, 3414); (3416, 3425); (3430, 3448); (3450, 3455); (3461, 3478);
   (3482, 3505); (3507, 3515); (3517, 3517); (3520, 3526); (3558, 3567);
   (3585, 3632); (3634, 3635); (3648, 3654); (3664, 3673); (3713, 3714);
   (3716, 3716); (3718, 3722); (3724, 3747); (3749, 3749); (3751, 3760);
   (3762, 3763); (3773, 3773); (3776, 3780); (3782, 3782); (3792, 3801);
   (3804, 3807); (3840, 3840); (3872, 3891); (3904, 3911); (3913, 3948);
   (3976, 3980); (4096, 4138); (4159, 4169); (4176, 4181); (4186, 4189);
   (4193, 4193); (4197, 4198); (4206, 4208); (4213, 4225); (4238, 4238);
   (4240, 4249); (4256, 4293); (4295, 4295); (4301, 4301); (4304, 4346);
   (4348, 4680); (4682, 4685); (4688, 4694); (4696, 4696); (4698, 4701);
   (4704, 4744); (4746, 4749); (4752, 4784); (4786, 4789); (4792, 4798);
   (4800, 4800); (4802, 4805); (4808, 4822); (4824, 4880); (4882, 4885);
   (4888, 4954); (4969, 4988); (4992, 5007); (5024, 5109); (5112, 5117);
   (5121, 5740); (5743, 5759); (5761, 5786); (5792, 5866); (5870, 5880);
   (5888, 5905); (5919, 5937); (5952, 5969); (5984, 5996); (5998, 6000);
   (6016, 6067); (6103, 6103); (6108, 6108); (6112, 6121); (6128, 6137);
   (6160, 6169); (6176, 6264); (6272, 6276); (6279, 6312); (6314, 6314);
   (6320, 6389); (6400, 6430); (6470, 6509); (6512, 6516); (6528, 6571);
   (6576, 6601); (6608, 6618); (6656, 6678); (6688, 6740); (6784, 6793);
   (6800, 6809); (6823, 6823); (6917, 6963); (6981, 6988); (6992, 7001);
   (7043, 7072); (7086, 7141); (7168, 7203); (7232, 7241); (7245, 7293);
   (7296, 7304); (7312, 7354); (7357, 7359); (7401, 7404); (7406, 7411);
   (7413, 7414); (7418, 7418); (7424, 7615); (7680, 7957); (7960, 7965);
   (7968, 8005); (8008, 8013); (8016, 8023); (8025, 8025); (8027, 8027);
   (8029, 8029); (8031, 8061); (8064, 8116); (8118, 8124); (8126, 8126);
   (8130, 8132); (8134, 8140); (8144, 8147); (8150, 8155); (8160, 8172);
   (8178, 8180); (8182, 8188); (8304, 8305); (8308, 8313); (8319, 8329);
   (8336, 8348); (8450, 8450); (8455, 8455); (8458, 8467); (8469, 8469);
   (8473, 8477); (8484, 8484); (8486, 8486); (8488, 8488); (8490, 8493);
   (8495, 8505); (8508, 8511); (8517, 8521); (8526, 8526); (8528, 8585);
   (9312, 9371); (9450, 9471); (10102, 10131); (11264, 11492); (11499, 11502);
   (11506, 11507); (11517, 11517); (11520, 11557); (11559, 11559); (11565, 11565);
   (11568, 11623); (11631, 11631); (11648, 11670); (11680, 11686); (11688, 11694);
   (11696, 11702); (11704, 11710); (11712, 11718); (11720, 11726); (11728, 11734);
   (11736, 11742); (11823, 11823); (12293, 12295); (12321, 12329); (12337, 12341);
   (12344, 12348); (12353, 12438); (12445, 12447); (12449, 12538); (12540, 12543);
   (12549, 12591); (12593, 12686); (12690, 12693); (12704, 12735); (12784, 12799);
   (12832, 12841); (12872, 12879); (12881, 12895); (12928, 12937); (12977, 12991);
   (13312, 19903); (19968, 42124); (42192, 42237); (42240, 42508); (42512, 42539);
   (42560, 42606); (42623, 42653); (42656, 42735); (42775, 42783); (42786, 42888);
   (42891, 42954); (42960, 42961); (42963, 42963); (42965, 42969); (42994, 43009);
   (43011, 43013); (43015, 43018); (43020, 43042); (43056, 43061); (43072, 43123);
   (43138, 43187); (43216, 43225); (43250, 43255); (43259, 43259); (43261, 43262);
   (43264, 43301); (43312, 43334); (43360, 43388); (43396, 43442); (43471, 43481);
   (43488, 43492); (43494, 43518); (43520, 43560); (43584, 43586); (43588, 43595);
   (43600, 43609); (43616, 43638); (43642, 43642); (43646, 43695); (43697, 43697);
   (43701, 43702); (43705, 43709); (43712, 43712); (43714, 43714); (43739, 43741);
   (43744, 43754); (43762, 43764); (43777, 43782); (43785, 43790); (43793, 43798);
   (43808, 43814); (43816, 43822); (43824, 43866); (43868, 43881); (43888, 44002);
   (44016, 44025); (44032, 55203); (55216, 55238); (55243, 55291); (63744, 64109);
   (64112, 64217); (64256, 64262); (64275, 64279); (64285, 64285); (64287, 64296);
   (64298, 64310); (64312, 64316); (64318, 64318); (64320, 64321); (64323, 64324);
   (64326, 64433); (64467, 64829); (64848, 64911); (64914, 64967); (65008, 65019);
   (65136, 65140); (65142, 65276); (65296, 65305); (65313, 65338); (65345, 65370);
   (65382, 65470); (65474, 65479); (65482, 65487); (65490, 65495); (65498, 65500);
   (65536, 65547); (65549, 65574); (65576, 65594); (65596, 65597); (65599, 65613);
   (65616, 65629); (65664, 65786); (65799, 65843); (65856, 65912); (65930, 65931);
   (66176, 66204); (66208, 66256); (66273, 66299); (66304, 66339); (66349, 66378);
   (66384, 66421); (66432, 66461); (66464, 66499); (66504, 66511); (66513, 66517);
   (66560, 66717); (66720, 66729); (66736, 66771); (66776, 66811); (66816, 66855);
   (66864, 66915); (66928, 66938); (66940, 66954); (66956, 66962); (66964, 66965);
   (66967, 66977); (66979, 66993); (66995, 67001); (67003, 67004); (67072, 67382);
   (67392, 67413); (67424, 67431); (67456, 67461); (67463, 67504); (67506, 67514);
   (67584, 67589); (67592, 67592); (67594, 67637); (67639, 67640); (67644, 67644);
   (67647, 67669); (67672, 67702); (67705, 67742); (67751, 67759); (67808, 67826);
   (67828, 67829); (67835, 67867); (67872, 67897); (67968, 68023); (68028, 68047);
   (68050, 68096); (68112, 68115); (68117, 68119); (68121, 68149); (68160, 68168);
   (68192, 68222); (68224, 68255); (68288, 68295); (68297, 68324); (68331, 68335);
   (68352, 68405); (68416, 68437); (68440, 68466); (68472, 68497); (68521, 68527);
   (68608, 68680); (68736, 68786); (68800, 68850); (68858, 68899); (68912, 68921);
   (69216, 69246); (69248, 69289); (69296, 69297); (69376, 69415); (69424, 69445);
   (69457, 69460); (69488, 69505); (69552, 69579); (69600, 69622); (69635, 69687);
   (69714, 69743); (69745, 69746); (69749, 69749); (69763, 69807); (69840, 69864);
   (69872, 69881); (69891, 69926); (69942, 69951); (69956, 69956); (69959, 69959);
   (69968, 70002); (70006, 70006); (70019, 70066); (70081, 70084); (70096, 70106);
   (70108, 70108); (70113, 70132); (70144, 70161); (70163, 70187); (70272, 70278);
   (70280, 70280); (70282, 70285); (70287, 70301); (70303, 70312); (70320, 70366);
   (70384, 70393); (70405, 70412); (70415, 70416); (70419, 70440); (70442, 70448);
   (70450, 70451); (70453, 70457); (70461, 70461); (70480, 70480); (70493, 70497);
   (70656, 70708); (70727, 70730); (70736, 70745); (70751, 70753); (70784, 70831);
   (70852, 70853); (70855, 70855); (70864, 70873); (71040, 71086); (71128, 71131);
   (71168, 71215); (71236, 71236); (71248, 71257); (71296, 71338); (71352, 71352);
   (71360, 71369); (71424, 71450); (71472, 71483); (71488, 71494); (71680, 71723);
   (71840, 71922); (71935, 71942); (71945, 71945); (71948, 71955); (71957, 71958);
   (71960, 71983); (71999, 71999); (72001, 72001); (72016, 72025); (72096, 72103);
   (72106, 72144); (72161, 72161); (72163, 72163); (72192, 72192); (72203, 72242);
   (72250, 72250); (72272, 72272); (72284, 72329); (72349, 72349); (72368, 72440);
   (72704, 72712); (72714, 72750); (72768, 72768); (72784, 72812); (72818, 72847);
   (72960, 72966); (72968, 72969); (72971, 73008); (73030, 73030); (73040, 73049);
   (73056, 73061); (73063, 73064); (73066, 73097); (73112, 73112); (73120, 73129);
   (73440, 73458); (73648, 73648); (73664, 73684); (73728, 74649); (74752, 74862);
   (74880, 75075); (77712, 77808); (77824, 78894); (82944, 83526); (92160, 92728);
   (92736, 92766); (92768, 92777); (92784, 92862); (92864, 92873); (92880, 92909);
   (92928, 92975); (92992, 92995); (93008, 93017); (93019, 93025); (93027, 93047);
   (93053, 93071); (93760, 93846); (93952, 94026); (94032, 94032); (94099, 94111);
   (94176, 94177); (94179, 94179); (94208, 100343); (100352, 101589); (101632, 101640);
   (110576, 110579); (110581, 110587); (110589, 110590); (110592, 110882); (110928, 110930);
   (110948, 110951); (110960, 111355); (113664, 113770); (113776, 113788); (113792, 113800);
   (113808, 113817); (119520, 119539); (119648, 119672); (119808, 119892); (119894, 119964);
   (119966, 119967); (119970, 119970); (119973, 119974); (119977, 119980); (119982, 119993);
   (119995, 119995); (119997, 120003); (120005, 120069); (120071, 120074); (120077, 120084);
   (120086, 120092); (120094, 120121); (120123, 120126); (120128, 120132); (120134, 120134);
   (120138, 120144); (120146, 120485); (120488, 120512); (120514, 120538); (120540, 120570);
   (120572, 120596); (120598, 120628); (120630, 120654); (120656, 120686); (120688, 120712);
   (120714, 120744); (120746, 120770); (120772, 120779); (120782, 120831); (122624, 122654);
   (123136, 123180); (123191, 123197); (123200, 123209); (123214, 123214); (123536, 123565);
   (123584, 123627); (123632, 123641); (124896, 124902); (124904, 124907); (124909, 124910);
   (124912, 124926); (124928, 125124); (125127, 125135); (125184, 125251); (125259, 125259);
   (125264, 125273); (126065, 126123); (126125, 126127); (126129, 126132); (126209, 126253);
   (126255, 126269); (126464, 126467); (126469, 126495); (126497, 126498); (126500, 126500);
   (126503, 126503); (126505, 126514); (126516, 126519); (126521, 126521); (126523, 126523);
   (126530, 126530); (126535, 126535); (126537, 126537); (126539, 126539); (126541, 126543);
   (126545, 126546); (126548, 126548); (126551, 126551); (126553, 126553); (126555, 126555);
   (126557, 126557); (126559, 126559); (126561, 126562); (126564, 126564); (126567, 126570);
   (126572, 126578); (126580, 126583); (126585, 126588); (126590, 126590); (126592, 126601);
   (126603, 126619); (126625, 126627); (126629, 126633); (126635, 126651); (127232, 127244);
   (130032, 130041); (131072, 173791); (173824, 177976); (177984, 178205); (178208, 183969);
   (183984, 191456); (194560, 195101); (196608, 201546)])%N.

(** The class [\w] of a [str] regex: [ch.isalnum() or ch == '_']. *)
Definition is_word_char (c : N) : bool :=
  ((c =? 95) || in_ranges alnum_ranges c)%N.

Fixpoint word_run (s : text) : text :=
  match s with
  | c :: s' => if is_word_char c then c :: word_run s' else []
  | [] => []
  end.

(** [re.search(lit + r'(\w+)', s)]: the leftmost position where [lit] is
    followed by at least one word character; the greedy group is the
    maximal run. *)
Fixpoint re_search_word (lit s : text) : option text :=
  match (if startswith s lit then word_run (skipn (length lit) s) else []) with
  | (_ :: _) as w => Some w
  | [] => match s with [] => None | _ :: s' => re_search_word lit s' end
  end.

Definition account_pattern1 : text := u "код счёта: ".
Definition account_pattern2 : text := u "№".
Definition unknown_account : text := u "UNKNOWN".

(** [str(self.df.iloc[3, 0])]: [None] is the [IndexError] of a frame with
    fewer than four rows. *)
Definition account_info (g : grid) : option text :=
  match nth_error g 3 with
  | Some r => Some (py_str (cell_at r 0))
  | None => None
  end.

Definition extract_account_number (g : grid) : text :=
  match account_info g with
  | None => unknown_account                    (* except Exception *)
  | Some info =>
    match re_search_word account_pattern1 info with
    | Some t => t
    | None =>
      match re_search_word account_pattern2 info with
      | Some t => t
      | None => unknown_account
      end
    end
  end.

Example account_number_unicode_words :
  extract_account_number [[]; []; []; [txt "№αβ"]] = u "αβ"
  /\ extract_account_number [[]; []; []; [txt "Отчет, код счёта: 12Ā"]] = u "12Ā".
Proof. vm_compute. split; reflexivity. Qed.

(** [parse_file]/[parse_bytes] after [pd.read_excel]: every step is
    total, so the [except Exception] that re-raises [ValueError] is never
    reached. *)
Definition parse_statement (g : grid) : BrokerStatement :=
  {| account_number := extract_account_number g;
     positions := extract_positions g;
     statement_date := None |}.

(** ** merge_csv_tables.extract_table_data and merge_csv_tables *)

Fixpoint lstrip_quote (s : text) : text :=
  match s with
  | c :: s' => if (c =? 34)%N then lstrip_quote s' else s
  | [] => []
  end.

(** [s.strip] with the double-quote character as its argument. *)
Definition strip_quote_chars (s : text) : text :=
  rev (lstrip_quote (rev (lstrip_quote s))).

(** The six cells of an output row: [""] for NaN, otherwise
    [str(value).strip()] with double quotes then stripped from both ends. *)
Definition clean_cell (c : cell) : text :=
  match c with
  | None => []
  | Some s => strip_quote_chars (strip s)
  end.

Definition table_row (r : row) (section_name : text) : list text :=
  map (fun j => clean_cell (cell_at r j)) (seq 0 6) ++ [section_name].

Fixpoint section_rows (g : grid) (section_name : text) (idx : list nat) : list (list text) :=
  match idx with
  | [] => []
  | i :: idx' =>
    let r := nth i g [] in
    if isna (cell_at r 0) || text_eqb (strip (py_str (cell_at r 0))) []
    then section_rows g section_name idx'
    else if contains (u "Итого") (py_str (cell_at r 0))
    then section_rows g section_name idx'
    else table_row r section_name :: section_rows g section_name idx'
  end.

(** [for i in range(start_idx, min(end_idx + 1, len(df)))] for every
    section. *)
Definition extract_table_data (g : grid) (sections : list span) : list (list text) :=
  flat_map (fun sp =>
              let stop := Nat.min (S (end_row sp)) (length g) in
              section_rows g (label sp) (seq (start_row sp) (stop - start_row sp)))
           sections.

Inductive merge_result :=
| MergeOk (rows : list (list text))
| MergeValueError (message : text).

Definition no_sections_message : text :=
  u "Не найдено секций с данными для объединения".

(** [merge_csv_tables] from the frame read by [pd.read_csv] up to the
    frame written by [to_csv] (the file checks and the writing are I/O). *)
Definition merge_csv_tables (g : grid) : merge_result :=
  match find_table_sections g with
  | [] => MergeValueError no_sections_message
  | sections => MergeOk (extract_table_data g sections)
  end.

(** The locator's test on row [j], [cell_value == "Эмитент"] with
    [cell_value] the text of [df.iloc[j, 0]]. *)
Definition header_row (g : grid) (j : nat) : bool :=
  text_eqb (first_text_at g j) header_pattern.

(** ** api.py and schemas.py: the response models and the converters *)

Record SecurityPositionResponse := {
  resp_issuer : text;
  resp_security_type : text;
  resp_trading_code : text;
  resp_isin : text;
  resp_currency : option text;
  resp_quantity : N;
  resp_is_bond : bool;
  resp_is_stock : bool;
  resp_is_etf : bool
}.

Record BrokerStatementResponse := {
  resp_account_number : text;
  resp_statement_date : option text;
  resp_total_positions : nat;
  bonds_count : nat;
  stocks_count : nat;
  etfs_count : nat;
  resp_positions : list SecurityPositionResponse
}.

Definition convert_position_to_response (position : SecurityPosition)
  : SecurityPositionResponse :=
  {| resp_issuer := issuer position;
     resp_security_type := security_type position;
     resp_trading_code := trading_code position;
     resp_isin := isin position;
     resp_currency := currency position;
     resp_quantity := quantity position;
     resp_is_bond := is_bond position;
     resp_is_stock := is_stock position;
     resp_is_etf := is_etf position |}.

Definition convert_statement_to_response (statement : BrokerStatement)
  : BrokerStatementResponse :=
  {| resp_account_number := account_number statement;
     resp_statement_date := statement_date statement;
     resp_total_positions := total_positions statement;
     bonds_count := length (bonds statement);
     stocks_count := length (stocks statement);
     etfs_count := length (etfs statement);
     resp_positions := map convert_position_to_response (positions statement) |}.

(** The file check of both upload endpoints:
    [not file.filename or not file.filename.endswith(('.xls', '.xlsx'))];
    [None] is a missing filename, [true] the [HTTPException(400)]. *)
Definition rejects_filename (filename : option text) : bool :=
  match filename with
  | None => true
  | Some f => text_eqb f [] || negb (endswith f (u ".xls") || endswith f (u ".xlsx"))
  end.

(** A statement with one bond, in the parser's layout. *)
Definition bond_row : row :=
  [txt "Минфин России"; txt "Облигация федерального займа"; txt "SU26238RMFS4";
   txt "RU000A1038V6"; None; txt "10"].

Definition bond_grid : grid :=
  [[txt "Сведения о ценных бумагах"];
   [txt "Эмитент"; txt "Наименование ценной бумаги"; txt "Идентификационный номер";
    txt "ISIN"; txt "Валюта/ номер/ серия"; txt "Остаток (шт.)"];
   bond_row; [None; None]].

(** The end-to-end statement of the spec, in the parser's layout. *)
Definition sample_grid : grid :=
  [[txt "Брокерский отчет"]; [None]; [None];
   [txt "Отчет, код счёта: 40817A1 от 01.01.2024"];
   [txt "Сведения о ценных бумагах, Classica"];
   [txt "Эмитент"; txt "Наименование ценной бумаги"; txt "Идентификационный номер";
    txt "ISIN"; txt "Валюта/ номер/ серия"; txt "Остаток (шт.)"];
   sber_row; [None; None; None; None; None; None]].

Example sample_parse :
  account_number (parse_statement sample_grid) = u "40817A1"
  /\ total_positions (parse_statement sample_grid) = 1
  /\ length (stocks (parse_statement sample_grid)) = 1
  /\ length (bonds (parse_statement sample_grid)) = 0
  /\ length (etfs (parse_statement sample_grid)) = 0.
Proof. vm_compute. repeat split. Qed.

Example sample_merge :
  merge_csv_tables sample_grid
  = MergeOk [[u "Сбер"; u "Обычная акция"; u "SBER03"; u "RU0009029540"; [];
              u "100"; u "Сведения о ценных бумагах, Classica"]].
Proof. vm_compute. reflexivity. Qed.

(** * Properties *)

(** ** Text lemmas *)

Lemma text_eqb_eq : forall a b, text_eqb a b = true <-> a = b.
Proof.
  induction a as [|x a IH]; destruct b as [|y b]; simpl; try (split; congruence).
  rewrite andb_true_iff, N.eqb_eq, IH. split.
  - intros [-> ->]. reflexivity.
  - intros H. injection H as -> ->. auto.
Qed.

Lemma startswith_spec : forall p s, startswith s p = true <-> exists r, s = p ++ r.
Proof.
  induction p as [|x p IH]; intros s; simpl.
  - split; [intros _; exists s; reflexivity | destruct s; reflexivity].
  - destruct s as [|y s].
    + simpl. split; [discriminate | intros [r H]; discriminate].
    + simpl. rewrite andb_true_iff, N.eqb_eq, IH. split.
      * intros [-> [r ->]]. eauto.
      * intros [r H]. injection H as -> ->. eauto.
Qed.

Lemma contains_spec : forall p s, contains p s = true <-> exists a b, s = a ++ p ++ b.
Proof.
  intros p s. induction s as [|y s IH];
    [change (contains p []) with (startswith [] p || false)
    | change (contains p (y :: s)) with (startswith (y :: s) p || contains p s)];
    rewrite orb_true_iff, startswith_spec.
  - split.
    + intros [[r ->] | H]; [exists [], r; reflexivity | discriminate].
    + intros [a [b H]]. destruct a; [left; eauto | discriminate].
  - rewrite IH. split.
    + intros [[r H] | [a [b ->]]].
      * exists [], r. exact H.
      * exists (y :: a), b. reflexivity.
    + intros [a [b H]]. destruct a as [|z a].
      * left. exists b. exact H.
      * right. injection H as -> ->. eauto.
Qed.

Lemma contains_length : forall p s, contains p s = true -> length p <= length s.
Proof.
  intros p s H. apply contains_spec in H as [a [b ->]].
  rewrite !length_app. lia.
Qed.

Lemma lstrip_nil : lstrip [] = [].
Proof. reflexivity. Qed.

Lemma strip_nil : strip [] = [].
Proof. reflexivity. Qed.

(** ** ImportService.validate_statement *)

(** C10: [validate_statement] always reports [valid = True], copies the
    statement's account number and position count, and counts the bonds,
    stocks and ETFs as the lengths of the derived lists. *)
Theorem validate_statement_summary : forall s : BrokerStatement,
  valid (validate_statement s) = true
  /\ vs_account_number (validate_statement s) = account_number s
  /\ vs_total_positions (validate_statement s) = length (positions s)
  /\ vs_bonds (validate_statement s) = length (bonds s)
  /\ vs_stocks (validate_statement s) = length (stocks s)
  /\ vs_etfs (validate_statement s) = length (etfs s).
Proof. intros s. repeat split. Qed.

(** ** Classification *)

Ltac classify H := unfold is_bond, is_stock, is_etf; rewrite H; vm_compute.

(** C2: [is_bond] / [is_stock] hold exactly when the lower-cased
    security type contains ["облигац"] / ["акц"], [is_etf] exactly when it
    equals ["пиф"]; all three depend on the security type alone; the
    examples of the spec, and ["ПИФ"] in any letter case. *)
Theorem security_type_classification :
  (forall p,
     (is_bond p = true <-> exists a b, lower (security_type p) = a ++ u "облигац" ++ b)
     /\ (is_stock p = true <-> exists a b, lower (security_type p) = a ++ u "акц" ++ b)
     /\ (is_etf p = true <-> lower (security_type p) = u "пиф"))
  /\ (forall p q, security_type p = security_type q ->
        is_bond p = is_bond q /\ is_stock p = is_stock q /\ is_etf p = is_etf q)
  /\ (forall p, security_type p = u "Государственная облигация" ->
        is_bond p = true /\ is_stock p = false /\ is_etf p = false)
  /\ (forall p, security_type p = u "Обычная акция" ->
        is_bond p = false /\ is_stock p = true /\ is_etf p = false)
  /\ (forall p a b c, In a [1055; 1087]%N -> In b [1048; 1080]%N -> In c [1060; 1092]%N ->
        security_type p = [a; b; c] -> is_etf p = true)
  /\ (forall p, security_type p = u "ETF Fund" ->
        is_bond p = false /\ is_stock p = false /\ is_etf p = false).
Proof.
  split; [intros p; split; [|split]|split; [|split; [|split; [|split]]]].
  - unfold is_bond. apply contains_spec.
  - unfold is_stock. apply contains_spec.
  - unfold is_etf. apply text_eqb_eq.
  - intros p q H. unfold is_bond, is_stock, is_etf. rewrite H. auto.
  - intros p H. classify H. auto.
  - intros p H. classify H. auto.
  - intros p a b c Ha Hb Hc H. unfold is_etf. rewrite H.
    simpl in Ha, Hb, Hc.
    destruct Ha as [<- | [<- | []]]; destruct Hb as [<- | [<- | []]];
      destruct Hc as [<- | [<- | []]]; vm_compute; reflexivity.
  - intros p H. classify H. auto.
Qed.

(** ** Row extraction *)

(** C1: [_create_position_from_row] returns a position exactly when the
    stripped issuer and ISIN are non-empty and the quantity parses to a
    number greater than 0; the position then carries that issuer, ISIN and
    quantity.  Every other row gives [None]: the function has no error
    result (its [except] also returns [None]). *)
Theorem create_position_accepts_iff_valid : forall r : row,
  ((exists p, create_position_from_row r = Some p) <->
   field r 0 [] <> [] /\ field r 3 [] <> [] /\
   exists q, parse_quantity (field r 5 (u "0")) = Some q /\ (0 < q)%N)
  /\ (forall p, create_position_from_row r = Some p ->
        issuer p = field r 0 [] /\ isin p = field r 3 [] /\
        parse_quantity (field r 5 (u "0")) = Some (quantity p) /\
        issuer p <> [] /\ isin p <> [] /\ (0 < quantity p)%N).
Proof.
  intros r. unfold create_position_from_row. cbv zeta.
  destruct (parse_quantity (field r 5 (u "0"))) as [q|] eqn:Hq.
  2:{ split; [split; [intros [p Hp]; discriminate
                     | intros (_ & _ & q' & Hq' & _); discriminate]
             | intros p Hp; discriminate]. }
  destruct (field r 0 []) as [|a0 A] eqn:E0;
    destruct (field r 3 []) as [|b0 B] eqn:E3;
    destruct (q <=? 0)%N eqn:Eq; simpl.
  all: try (split; [split; [intros [p Hp]; discriminate
                           | intros (H0 & H3 & q' & Hq' & Hpos); exfalso;
                             first [ congruence
                                   | injection Hq' as <-; apply N.leb_le in Eq; lia ]]
                   | intros p Hp; discriminate]).
  apply N.leb_gt in Eq.
  split.
  - split.
    + intros _. repeat split; try discriminate. exists q. auto.
    + intros _. eexists. reflexivity.
  - intros p Hp. injection Hp as <-. simpl. repeat split; try discriminate; auto.
Qed.

(** C7 (the divergence): ["²"] (U+00B2) passes [str.isdigit] but is no
    decimal digit, so [int] raises [ValueError] (here [None]) instead of
    the quantity falling back to 0; the row is then dropped by the
    [except] of [_create_position_from_row].  The two examples of the
    spec hold: ["1 234"] gives 1234, ["12,5"] gives 0 and its row is
    dropped. *)
Theorem quantity_superscript_digit_raises :
  parse_quantity (u "1 234") = Some 1234%N
  /\ parse_quantity (u "12,5") = Some 0%N
  /\ create_position_from_row
       [Some (u "Сбер"); Some (u "Обычная акция"); Some (u "SBER03");
        Some (u "RU0009029540"); None; Some (u "12,5")] = None
  /\ u "²" = [178%N]
  /\ decimal_value 178 = None
  /\ isdigit (remove_ws (u "²")) = true
  /\ parse_quantity (u "²") = None
  /\ create_position_from_row
       [Some (u "Сбер"); Some (u "Обычная акция"); Some (u "SBER03");
        Some (u "RU0009029540"); None; Some (u "²")] = None.
Proof. vm_compute. repeat split. Qed.

(** ** Account number *)

(** [re.search(lit + r'(\w+)', s)] finds a match. *)
Definition regex_matches (lit s : text) : Prop :=
  exists a c b, s = a ++ lit ++ c :: b /\ is_word_char c = true.

Lemma skipn_length_app : forall (p r : text), skipn (length p) (p ++ r) = r.
Proof. induction p; simpl; auto. Qed.

Lemma word_run_spec : forall t,
  exists b, t = word_run t ++ b /\ forallb is_word_char (word_run t) = true.
Proof.
  induction t as [|c t [b [Hb Hw]]]; simpl.
  - exists []. auto.
  - destruct (is_word_char c) eqn:E; simpl.
    + exists b. rewrite E, Hw. split; [congruence | reflexivity].
    + exists (c :: t). auto.
Qed.

Lemma re_search_word_eq : forall lit s,
  re_search_word lit s =
  match (if startswith s lit then word_run (skipn (length lit) s) else []) with
  | (_ :: _) as w => Some w
  | [] => match s with [] => None | _ :: s' => re_search_word lit s' end
  end.
Proof. intros lit s. destruct s; reflexivity. Qed.

(** A match found at the head of [s]. *)
Lemma re_search_word_head : forall lit s w,
  startswith s lit = true -> word_run (skipn (length lit) s) = w -> w <> [] ->
  exists a b, s = a ++ lit ++ w ++ b /\ w <> [] /\ forallb is_word_char w = true.
Proof.
  intros lit s w E Hw Hne. apply startswith_spec in E as [r Hr].
  destruct (word_run_spec (skipn (length lit) s)) as [b [Hb Hf]].
  rewrite Hw in Hb, Hf. exists [], b. repeat split; [|exact Hne|exact Hf].
  rewrite Hr, skipn_length_app in Hb. rewrite Hr, Hb. reflexivity.
Qed.

Lemma re_search_word_some : forall lit s w,
  re_search_word lit s = Some w ->
  exists a b, s = a ++ lit ++ w ++ b /\ w <> [] /\ forallb is_word_char w = true.
Proof.
  intros lit s. induction s as [|y s IH]; intros w H; rewrite re_search_word_eq in H;
    destruct (startswith _ lit) eqn:E;
    try destruct (word_run (skipn (length lit) _)) as [|c t] eqn:Hw.
  all: try discriminate.
  all: try (injection H as <-; apply re_search_word_head; auto; discriminate).
  all: destruct (IH w H) as [a [b [Hs Hrest]]]; exists (y :: a), b; rewrite Hs; auto.
Qed.

Lemma re_search_word_complete : forall lit s,
  regex_matches lit s -> re_search_word lit s <> None.
Proof.
  intros lit s. induction s as [|y s IH]; intros [a [c [b [Hs Hc]]]];
    rewrite re_search_word_eq.
  - exfalso. apply (f_equal (@length N)) in Hs.
    rewrite !length_app in Hs. simpl in Hs. lia.
  - destruct a as [|x a].
    + simpl in Hs. assert (E : startswith (y :: s) lit = true)
        by (apply startswith_spec; exists (c :: b); exact Hs).
      rewrite E, Hs. rewrite skipn_length_app. simpl. rewrite Hc. discriminate.
    + simpl in Hs. injection Hs as -> Hs.
      assert (IH' : re_search_word lit s <> None) by (apply IH; exists a, c, b; auto).
      destruct (if startswith (x :: s) lit then word_run (skipn (length lit) (x :: s)) else [])
        as [|z t]; [exact IH' | discriminate].
Qed.

Lemma re_search_word_sound : forall lit s w,
  re_search_word lit s = Some w -> regex_matches lit s.
Proof.
  intros lit s w H. apply re_search_word_some in H as [a [b [Hs [Hne Hf]]]].
  destruct w as [|c t]; [congruence|]. simpl in Hf. apply andb_true_iff in Hf as [Hc _].
  exists a, c, (t ++ b). split; [rewrite Hs; reflexivity | exact Hc].
Qed.

(** C8: the account number is read from [df.iloc[3, 0]]: the first
    pattern's token wins, then the second's; with no match of either, or
    with fewer than four rows, it is ["UNKNOWN"].  A token found is a
    non-empty run of word characters that follows the pattern's literal in
    the cell.  The function has no error result. *)
Theorem extract_account_number_spec : forall g : grid,
  (length g <= 3 -> extract_account_number g = unknown_account)
  /\ (forall r, nth_error g 3 = Some r ->
        (forall w, re_search_word account_pattern1 (py_str (cell_at r 0)) = Some w ->
                   extract_account_number g = w)
        /\ (re_search_word account_pattern1 (py_str (cell_at r 0)) = None ->
            forall w, re_search_word account_pattern2 (py_str (cell_at r 0)) = Some w ->
                      extract_account_number g = w)
        /\ (~ regex_matches account_pattern1 (py_str (cell_at r 0)) ->
            ~ regex_matches account_pattern2 (py_str (cell_at r 0)) ->
            extract_account_number g = unknown_account))
  /\ (forall lit s w, re_search_word lit s = Some w ->
        exists a b, s = a ++ lit ++ w ++ b /\ w <> [] /\ forallb is_word_char w = true).
Proof.
  intros g. split; [|split].
  - intros Hlen. unfold extract_account_number, account_info.
    rewrite (proj2 (nth_error_None g 3) Hlen). reflexivity.
  - intros r Hr. unfold extract_account_number, account_info. rewrite Hr.
    split; [|split].
    + intros w Hw. rewrite Hw. reflexivity.
    + intros H1 w Hw. rewrite H1, Hw. reflexivity.
    + intros N1 N2.
      destruct (re_search_word account_pattern1 (py_str (cell_at r 0))) eqn:E1;
        [exfalso; exact (N1 (re_search_word_sound _ _ _ E1))|].
      destruct (re_search_word account_pattern2 (py_str (cell_at r 0))) eqn:E2;
        [exfalso; exact (N2 (re_search_word_sound _ _ _ E2))|].
      reflexivity.
  - exact re_search_word_some.
Qed.

(** ** The section locator: evaluation by prefixes *)

Lemma scan_app : forall g xs ys i st,
  scan g (xs ++ ys) i st = scan g ys (i + length xs) (scan g xs i st).
Proof.
  intros g xs. induction xs as [|r xs IH]; intros ys i st; simpl.
  - rewrite Nat.add_0_r. reflexivity.
  - rewrite IH. f_equal. lia.
Qed.

Lemma firstn_S_nth_error : forall (g : grid) n r,
  nth_error g n = Some r -> firstn (S n) g = firstn n g ++ [r].
Proof.
  intros g. induction g as [|r0 g IH]; intros n r H; [destruct n; discriminate|].
  destruct n as [|n]; simpl in H.
  - injection H as <-. reflexivity.
  - change (firstn (S (S n)) (r0 :: g)) with (r0 :: firstn (S n) g).
    rewrite (IH n r H). reflexivity.
Qed.

(** The locator's state after the rows [0 .. n-1]. *)
Definition st_at (g : grid) (n : nat) : lstate := scan g (firstn n g) 0 lstate0.

Lemma st_at_S : forall g n r,
  nth_error g n = Some r -> st_at g (S n) = locator_step g (st_at g n) n r.
Proof.
  intros g n r H. unfold st_at. rewrite (firstn_S_nth_error g n r H), scan_app.
  rewrite length_firstn. replace (Nat.min n (length g)) with n.
  - reflexivity.
  - assert (Hn : n < length g) by (apply nth_error_Some; congruence). lia.
Qed.

Lemma find_table_sections_st_at : forall g,
  find_table_sections g = finish g (st_at g (length g)).
Proof. intros g. unfold find_table_sections, st_at. rewrite firstn_all. reflexivity. Qed.

Lemma nth_error_first_text : forall g n r,
  nth_error g n = Some r -> first_text_at g n = first_text r.
Proof. intros g n r H. unfold first_text_at. rewrite (nth_error_nth g n [] H). reflexivity. Qed.

(** ** Span order *)

Definition spans_ordered (xs : list span) : Prop :=
  (forall x, In x xs -> start_row x <= S (end_row x))
  /\ (forall k l a b, k < l -> nth_error xs k = Some a -> nth_error xs l = Some b ->
        S (end_row a) < start_row b).

Lemma spans_ordered_snoc : forall xs y,
  spans_ordered xs -> start_row y <= S (end_row y) ->
  (forall x, In x xs -> S (end_row x) < start_row y) ->
  spans_ordered (xs ++ [y]).
Proof.
  intros xs y [Hw Hp] Hy Hlt. split.
  - intros x Hx. apply in_app_or in Hx as [Hx | [<- | []]]; auto.
  - intros k l a b Hkl Ha Hb.
    assert (Hk : k < length xs).
    { destruct (Nat.lt_ge_cases k (length xs)) as [?|Hge]; auto.
      rewrite nth_error_app2 in Ha by lia. rewrite nth_error_app2 in Hb by lia.
      destruct (l - length xs) as [|m] eqn:El; [lia|].
      destruct m; discriminate. }
    rewrite nth_error_app1 in Ha by exact Hk.
    destruct (Nat.lt_ge_cases l (length xs)) as [Hl | Hl].
    + rewrite nth_error_app1 in Hb by exact Hl. eauto.
    + rewrite nth_error_app2 in Hb by exact Hl.
      destruct (l - length xs) as [|m]; [|destruct m; discriminate].
      injection Hb as <-. apply Hlt. eapply nth_error_In. exact Ha.
Qed.

(** The invariant of [find_table_sections] before row [i]: the spans
    found are ordered and end before row [i]; an open section starts at
    least one row after the header that opened it, after every span found
    and their separating row. *)
Definition loc_inv (i : nat) (st : lstate) : Prop :=
  spans_ordered (secs st)
  /\ (forall x, In x (secs st) -> end_row x < i)
  /\ match cur st with
     | Some (_, s) => 1 <= s <= i /\ (forall x, In x (secs st) -> S (S (end_row x)) <= s)
     | None => True
     end.

Lemma loc_inv_init : loc_inv 0 lstate0.
Proof. repeat split; simpl; try tauto. intros k l a b _ Ha. destruct k; discriminate. Qed.

Lemma loc_inv_close : forall i st l s,
  loc_inv i st -> cur st = Some (l, s) ->
  spans_ordered (secs st ++ [mk_span l s (i - 1)])
  /\ (forall x, In x (secs st ++ [mk_span l s (i - 1)]) -> S (end_row x) <= i).
Proof.
  intros i st l s [Ho [Hend Hcur]] Hc. rewrite Hc in Hcur. destruct Hcur as [[H1 H2] Hsep].
  split.
  - apply spans_ordered_snoc; [exact Ho | simpl; lia |].
    intros x Hx. specialize (Hsep x Hx). simpl. lia.
  - intros x Hx. apply in_app_or in Hx as [Hx | [<- | []]]; simpl.
    + specialize (Hend x Hx). lia.
    + lia.
Qed.

Lemma loc_inv_step : forall g i st r,
  loc_inv i st -> loc_inv (S i) (locator_step g st i r).
Proof.
  intros g i st r Hinv.
  pose proof Hinv as [Ho [Hend Hcur]].
  unfold locator_step.
  destruct (text_eqb (first_text r) header_pattern).
  - unfold close_current, loc_inv. cbn [secs cur].
    destruct (cur st) as [[l s]|] eqn:Hc.
    + destruct (loc_inv_close i st l s Hinv Hc) as [Ho' Hle].
      split; [exact Ho'|split; [|split; [lia|]]];
        intros x Hx; specialize (Hle x Hx); lia.
    + split; [exact Ho|split; [|split; [lia|]]];
        intros x Hx; specialize (Hend x Hx); lia.
  - destruct (is_terminator (first_text r)).
    + unfold close_current. destruct (cur st) as [[l s]|] eqn:Hc.
      * destruct (loc_inv_close i st l s Hinv Hc) as [Ho' Hle].
        unfold loc_inv. cbn [secs cur].
        split; [exact Ho'|split; [|exact I]].
        intros x Hx. specialize (Hle x Hx). lia.
      * unfold loc_inv. rewrite Hc.
        split; [exact Ho|split; [|exact I]].
        intros x Hx. specialize (Hend x Hx). lia.
    + unfold loc_inv. split; [exact Ho|split].
      * intros x Hx. specialize (Hend x Hx). lia.
      * destruct (cur st) as [[l s]|]; auto. destruct Hcur as [Hs Hsep].
        split; [lia|exact Hsep].
Qed.

Lemma loc_inv_scan : forall g rs i st,
  loc_inv i st -> loc_inv (i + length rs) (scan g rs i st).
Proof.
  intros g rs. induction rs as [|r rs IH]; intros i st H; simpl.
  - rewrite Nat.add_0_r. exact H.
  - replace (i + S (length rs)) with (S i + length rs) by lia.
    apply IH, loc_inv_step, H.
Qed.

Lemma last_data_row_bound : forall g s,
  1 <= s <= length g -> s <= S (last_data_row g s).
Proof.
  intros g s Hs. unfold last_data_row.
  destruct (find _ _) as [j|] eqn:Hf; [|lia].
  apply find_some in Hf as [Hin _]. apply in_rev, in_seq in Hin. lia.
Qed.

Lemma finish_ordered : forall g st,
  loc_inv (length g) st -> spans_ordered (finish g st).
Proof.
  intros g st [Ho [Hend Hcur]]. unfold finish.
  destruct (cur st) as [[l s]|]; [|exact Ho].
  destruct Hcur as [Hs Hsep]. apply spans_ordered_snoc.
  - exact Ho.
  - simpl. apply last_data_row_bound. exact Hs.
  - intros x Hx. specialize (Hsep x Hx). simpl. lia.
Qed.

(** X15: every span satisfies [start_row <= end_row + 1] (with equality
    for a section that has no row between its header marker and its end);
    of two spans of one result the earlier ends at least two rows before
    the later one starts, so the spans do not overlap and their
    [start_row] increase strictly. *)
Theorem find_table_sections_ordered : forall g : grid,
  (forall sp, In sp (find_table_sections g) -> start_row sp <= S (end_row sp))
  /\ (forall k l a b, k < l ->
        nth_error (find_table_sections g) k = Some a ->
        nth_error (find_table_sections g) l = Some b ->
        S (end_row a) < start_row b /\ start_row a < start_row b).
Proof.
  intros g.
  assert (H : spans_ordered (find_table_sections g)).
  { unfold find_table_sections. apply finish_ordered.
    exact (loc_inv_scan g g 0 lstate0 loc_inv_init). }
  destruct H as [Hw Hp]. split; [exact Hw|].
  intros k l a b Hkl Ha Hb. pose proof (Hp k l a b Hkl Ha Hb) as Hlt.
  assert (Hwa : start_row a <= S (end_row a)) by (apply Hw; eapply nth_error_In; eauto).
  split; lia.
Qed.

(** C3 (the divergence): a section whose header is directly followed by
    its terminator gives a span with [start_row > end_row], against the
    invariant [start_row <= end_row] that the spec states and the test of
    [find_table_sections] asserts. *)
Lemma empty_section_span_inverted :
  find_table_sections
    [[txt "Облигации"]; [txt "Эмитент"]; [txt "Итого по разделу"]]
  = [mk_span (u "Облигации") 2 1]
  /\ exists sp, In sp (find_table_sections
                         [[txt "Облигации"]; [txt "Эмитент"]; [txt "Итого по разделу"]])
                /\ end_row sp < start_row sp.
Proof.
  split; [vm_compute; reflexivity|].
  exists (mk_span (u "Облигации") 2 1). split; [vm_compute; left; reflexivity | simpl; lia].
Qed.

(** ** Sections found stay found; an open section is eventually closed *)

Lemma locator_step_secs : forall g st i r,
  exists ys, secs (locator_step g st i r) = secs st ++ ys.
Proof.
  intros g st i r. unfold locator_step, close_current.
  destruct (text_eqb _ _); [|destruct (is_terminator _)];
    destruct (cur st) as [[l s]|]; simpl; eauto using app_nil_r.
Qed.

Lemma nth_error_lt : forall (g : grid) n, n < length g -> exists r, nth_error g n = Some r.
Proof.
  intros g n H. destruct (nth_error g n) as [r|] eqn:E; eauto.
  apply nth_error_None in E. lia.
Qed.

Lemma st_at_secs_mono : forall g n d x,
  n + d <= length g -> In x (secs (st_at g n)) -> In x (secs (st_at g (n + d))).
Proof.
  intros g n d x. induction d as [|d IH]; intros Hle Hx.
  - rewrite Nat.add_0_r. exact Hx.
  - destruct (nth_error_lt g (n + d)) as [r Hr]; [lia|].
    rewrite Nat.add_succ_r, (st_at_S g (n + d) r Hr).
    destruct (locator_step_secs g (st_at g (n + d)) (n + d) r) as [ys ->].
    apply in_or_app. left. apply IH; [lia | exact Hx].
Qed.

Lemma finish_secs : forall g st x, In x (secs st) -> In x (finish g st).
Proof.
  intros g st x Hx. unfold finish. destruct (cur st) as [[l s]|]; auto.
  apply in_or_app. auto.
Qed.

Lemma open_section_closed : forall g n l s,
  n <= length g -> cur (st_at g n) = Some (l, s) ->
  exists e, In (mk_span l s e) (find_table_sections g).
Proof.
  intros g n l s Hn Hc.
  assert (H : forall d, n + d <= length g ->
            cur (st_at g (n + d)) = Some (l, s)
            \/ exists e, In (mk_span l s e) (secs (st_at g (n + d)))).
  { induction d as [|d IH]; intros Hle.
    - rewrite Nat.add_0_r. auto.
    - destruct (nth_error_lt g (n + d)) as [r Hr]; [lia|].
      rewrite Nat.add_succ_r, (st_at_S g (n + d) r Hr).
      destruct (IH ltac:(lia)) as [Hcur | [e He]].
      + unfold locator_step, close_current. rewrite Hcur.
        destruct (text_eqb _ _); [|destruct (is_terminator _)]; simpl; auto;
          right; exists (n + d - 1); apply in_or_app; simpl; auto.
      + right. exists e.
        destruct (locator_step_secs g (st_at g (n + d)) (n + d) r) as [ys ->].
        apply in_or_app. auto. }
  destruct (H (length g - n) ltac:(lia)) as [Hcur | [e He]];
    replace (n + (length g - n)) with (length g) in * by lia;
    rewrite find_table_sections_st_at.
  - unfold finish. rewrite Hcur. exists (last_data_row g s).
    apply in_or_app. simpl. auto.
  - exists e. apply finish_secs. exact He.
Qed.

Lemma text_eqb_neq : forall a b, a <> b -> text_eqb a b = false.
Proof.
  intros a b H. destruct (text_eqb a b) eqn:E; auto. apply text_eqb_eq in E. congruence.
Qed.

(** C6: when two header markers in rows [h1 < h2] have neither a header
    marker nor a terminator between them, the locator ends the first span
    at row [h2 - 1] and opens a span starting at row [h2 + 1].  The
    locator is a total function: no input makes it fail. *)
Theorem consecutive_headers_split : forall (g : grid) h1 h2,
  h1 < h2 -> h2 < length g ->
  first_text_at g h1 = header_pattern ->
  first_text_at g h2 = header_pattern ->
  (forall k, h1 < k < h2 ->
     first_text_at g k <> header_pattern /\ is_terminator (first_text_at g k) = false) ->
  In (mk_span (infer_label g h1) (S h1) (h2 - 1)) (find_table_sections g)
  /\ exists e, In (mk_span (infer_label g h2) (S h2) e) (find_table_sections g).
Proof.
  intros g h1 h2 H12 H2 Hh1 Hh2 Hbetween.
  destruct (nth_error_lt g h1) as [r1 Hr1]; [lia|].
  destruct (nth_error_lt g h2) as [r2 Hr2]; [lia|].
  rewrite (nth_error_first_text g h1 r1 Hr1) in Hh1.
  rewrite (nth_error_first_text g h2 r2 Hr2) in Hh2.
  assert (Hopen : forall d, S h1 + d <= h2 ->
            cur (st_at g (S h1 + d)) = Some (infer_label g h1, S h1)).
  { induction d as [|d IH]; intros Hle.
    - rewrite Nat.add_0_r, (st_at_S g h1 r1 Hr1). unfold locator_step.
      rewrite Hh1. reflexivity.
    - destruct (nth_error_lt g (S h1 + d)) as [r Hr]; [lia|].
      destruct (Hbetween (S h1 + d) ltac:(lia)) as [Hnh Hnt].
      rewrite (nth_error_first_text g _ r Hr) in Hnh, Hnt.
      rewrite Nat.add_succ_r, (st_at_S g _ r Hr). unfold locator_step.
      rewrite (text_eqb_neq _ _ Hnh), Hnt. apply IH. lia. }
  specialize (Hopen (h2 - S h1) ltac:(lia)).
  replace (S h1 + (h2 - S h1)) with h2 in Hopen by lia.
  assert (Hstep : st_at g (S h2)
                  = mk_lstate (secs (st_at g h2) ++ [mk_span (infer_label g h1) (S h1) (h2 - 1)])
                              (Some (infer_label g h2, S h2))).
  { rewrite (st_at_S g h2 r2 Hr2). unfold locator_step, close_current.
    rewrite Hh2, Hopen. reflexivity. }
  split.
  - rewrite find_table_sections_st_at. apply finish_secs.
    replace (length g) with (S h2 + (length g - S h2)) by lia.
    apply st_at_secs_mono; [lia|]. rewrite Hstep. simpl.
    apply in_or_app. simpl. auto.
  - apply (open_section_closed g (S h2)); [lia|]. rewrite Hstep. reflexivity.
Qed.

Definition two_headers_grid : grid :=
  [[txt "Облигации"]; [txt "Эмитент"]; [txt "A"]; [txt "Акции"]; [txt "Эмитент"]; [txt "B"]].

(** The witness of C6: headers in rows 1 and 4. *)
Lemma consecutive_headers_split_witness :
  In (mk_span (u "Облигации") 2 3) (find_table_sections two_headers_grid)
  /\ exists e, In (mk_span (u "Акции") 5 e) (find_table_sections two_headers_grid).
Proof.
  apply (consecutive_headers_split two_headers_grid 1 4).
  - lia.
  - simpl. lia.
  - vm_compute. reflexivity.
  - vm_compute. reflexivity.
  - intros k Hk. assert (k = 2 \/ k = 3) as [-> | ->] by lia;
      split; vm_compute; try reflexivity; discriminate.
Defined.

(** ** Terminators and blank rows *)

Lemma find_seq_first : forall (f : nat -> bool) n a b,
  a <= b < a + n -> f b = true -> (forall k, a <= k < b -> f k = false) ->
  find f (seq a n) = Some b.
Proof.
  intros f n. induction n as [|n IH]; intros a b Hb Hfb Hbefore; [lia|].
  simpl. destruct (Nat.eq_dec a b) as [-> | Hne].
  - rewrite Hfb. reflexivity.
  - rewrite (Hbefore a ltac:(lia)).
    apply IH; [lia | exact Hfb | intros k Hk; apply Hbefore; lia].
Qed.

(** C5 (as the code has it): in the locator a terminator row closes the
    open section at the row before it and leaves no section open, while a
    row of NaN cells changes nothing (a section stays open across it);
    a blank row ends a section only in the parser's [_find_section_end],
    which returns the first row from its start that is all NaN or whose
    first cell contains ["Итого"] or the section title. *)
Theorem terminator_and_blank_rows :
  (forall g st i r l s, cur st = Some (l, s) -> is_terminator (first_text r) = true ->
     locator_step g st i r = mk_lstate (secs st ++ [mk_span l s (i - 1)]) None)
  /\ (forall g st i r, forallb isna r = true -> locator_step g st i r = st)
  /\ (forall (g : grid) start b, start <= b < length g ->
        section_end_row (nth b g []) = true ->
        (forall k, start <= k < b -> section_end_row (nth k g []) = false) ->
        find_section_end g start = b)
  /\ (forall r, forallb isna r = true -> section_end_row r = true).
Proof.
  split; [|split; [|split]].
  - intros g st i r l s Hc Ht. unfold locator_step.
    destruct (text_eqb (first_text r) header_pattern) eqn:E.
    + apply text_eqb_eq in E. rewrite E in Ht. vm_compute in Ht. discriminate.
    + rewrite Ht, Hc. unfold close_current. rewrite Hc. reflexivity.
  - intros g st i r Hna.
    assert (Hf : first_text r = []).
    { unfold first_text, cell_at. destruct r as [|c r]; [reflexivity|].
      simpl in Hna. apply andb_true_iff in Hna as [Hc _].
      destruct c; [discriminate | reflexivity]. }
    unfold locator_step. rewrite Hf. reflexivity.
  - intros g start b Hb Hend Hbefore. unfold find_section_end.
    rewrite (find_seq_first (fun i => section_end_row (nth i g [])) (length g - start)
               start b ltac:(lia) Hend Hbefore).
    reflexivity.
  - intros r H. unfold section_end_row. rewrite H. reflexivity.
Qed.

(** C5: the blank row 2 does not close the section opened by the header
    in row 0: the single span runs over it to row 3. *)
Lemma blank_row_keeps_section_open :
  find_table_sections [[txt "Эмитент"]; [txt "A"]; [None]; [txt "B"]]
  = [mk_span unknown_label 1 3].
Proof. vm_compute. reflexivity. Qed.

(** ** Section labels *)

Lemma strip_quotes_enclosed : forall m : text, strip_quotes ([34%N] ++ m ++ [34%N]) = m.
Proof.
  intros m. unfold strip_quotes.
  assert (Hs : startswith ([34%N] ++ m ++ [34%N]) [34%N] = true)
    by (apply startswith_spec; exists (m ++ [34%N]); reflexivity).
  assert (He : endswith ([34%N] ++ m ++ [34%N]) [34%N] = true).
  { unfold endswith. rewrite !rev_app_distr. apply startswith_spec.
    exists (rev m ++ [34%N]). reflexivity. }
  rewrite Hs, He. simpl.
  replace (length (m ++ [34%N]) - 1) with (length m)
    by (rewrite length_app; simpl; lia).
  rewrite firstn_app, Nat.sub_diag, firstn_all. simpl. apply app_nil_r.
Qed.

(** C4 (the divergences): the label of a section does not skip a total
    row right above the header marker (the filter on ["Итого"] applies only
    to the window search); and the window search takes the topmost
    qualifying row of [max(0, i-3) .. i-1], not the nearest one: for the
    first cells [A; B; blank; Эмитент] the label is [A] where the nearest
    qualifying row is [B]. *)
Lemma header_label_divergences :
  find_table_sections
    [[txt "Облигации"]; [txt "Эмитент"]; [txt "A"]; [txt "Итого по разделу"];
     [txt "Эмитент"]; [txt "B"]]
  = [mk_span (u "Облигации") 2 2; mk_span (u "Итого по разделу") 5 5]
  /\ startswith (u "Итого по разделу") (u "Итого") = true
  /\ infer_label [[txt "A"]; [txt "B"]; [None]; [txt "Эмитент"]] 3 = u "A"
  /\ window_candidate (first_text_at [[txt "A"]; [txt "B"]; [None]; [txt "Эмитент"]] 1) = true
  /\ find_table_sections [[txt "A"]; [txt "B"]; [None]; [txt "Эмитент"]; [txt "C"]]
     = [mk_span (u "A") 4 4].
Proof. vm_compute. repeat split. Qed.

(** ** Grids without a header marker *)

Lemma find_row_from_none_mono : forall (p q : row -> bool) rs i,
  (forall r, q r = true -> p r = true) ->
  find_row_from p rs i = None -> find_row_from q rs i = None.
Proof.
  intros p q rs. induction rs as [|r rs IH]; intros i Hpq H; simpl in *; auto.
  destruct (p r) eqn:Ep; [discriminate|].
  destruct (q r) eqn:Eq; [apply Hpq in Eq; congruence|]. eauto.
Qed.

Lemma row_has_text_prefix : forall p q r,
  row_has_text (p ++ q) r = true -> row_has_text p r = true.
Proof.
  intros p q r. unfold row_has_text. rewrite !existsb_exists.
  intros [c [Hin Hc]]. exists c. split; [exact Hin|].
  destruct c as [s|]; [|discriminate].
  apply contains_spec in Hc as [a [b ->]]. apply contains_spec.
  exists a, (q ++ b). rewrite <- app_assoc. reflexivity.
Qed.

Lemma classica_title_split :
  u "Сведения о ценных бумагах, Classica" = u "Сведения о ценных бумагах" ++ u ", Classica".
Proof. vm_compute. reflexivity. Qed.

(** C9 (as the code has it): with no header marker the locator finds no
    section and the CSV merge stops with its [ValueError]; the statement
    parser does not use the header marker and reports no error: with
    neither the section title nor the fallback issuer in the grid it
    returns a statement with no position. *)
Theorem no_header_marker_outcomes : forall g : grid,
  (forall k, k < length g -> first_text_at g k <> header_pattern) ->
  find_table_sections g = []
  /\ merge_csv_tables g = MergeValueError no_sections_message
  /\ (find_section_start g (u "Сведения о ценных бумагах") = None ->
      find_row_with_text g (u "Advanced Micro Devices") = None ->
      parse_statement g
      = {| account_number := extract_account_number g; positions := [];
           statement_date := None |}).
Proof.
  intros g Hno.
  assert (Hst : forall n, n <= length g -> st_at g n = lstate0).
  { induction n as [|n IH]; intros Hn; [reflexivity|].
    destruct (nth_error_lt g n) as [r Hr]; [lia|].
    rewrite (st_at_S g n r Hr), IH by lia.
    pose proof (Hno n ltac:(lia)) as Hnh. rewrite (nth_error_first_text g n r Hr) in Hnh.
    unfold locator_step. rewrite (text_eqb_neq _ _ Hnh).
    destruct (is_terminator _); reflexivity. }
  assert (Hfts : find_table_sections g = []).
  { rewrite find_table_sections_st_at, (Hst (length g) (le_n _)). reflexivity. }
  split; [exact Hfts|split].
  - unfold merge_csv_tables. rewrite Hfts. reflexivity.
  - intros Hs Ha. unfold parse_statement, extract_positions, extract_bonds,
      extract_stocks_and_etfs, stocks_first_row.
    assert (Hc : find_section_start g (u "Сведения о ценных бумагах, Classica") = None).
    { unfold find_section_start in *.
      refine (find_row_from_none_mono _ _ g 0 _ Hs).
      intros r Hr. rewrite classica_title_split in Hr.
      exact (row_has_text_prefix _ _ r Hr). }
    rewrite Hs, Hc, Ha. reflexivity.
Qed.

Definition no_header_grid : grid :=
  [[txt "Брокерский отчет"]; [None]; [None]; [txt "Счет №A17"]; [txt "Остатки на 01.01.2024"]].

(** The witness of C9. *)
Lemma no_header_marker_outcomes_witness :
  find_table_sections no_header_grid = []
  /\ merge_csv_tables no_header_grid = MergeValueError no_sections_message
  /\ (find_section_start no_header_grid (u "Сведения о ценных бумагах") = None ->
      find_row_with_text no_header_grid (u "Advanced Micro Devices") = None ->
      parse_statement no_header_grid
      = {| account_number := extract_account_number no_header_grid; positions := [];
           statement_date := None |}).
Proof.
  apply no_header_marker_outcomes.
  intros k Hk. simpl in Hk.
  assert (k = 0 \/ k = 1 \/ k = 2 \/ k = 3 \/ k = 4) as [-> | [-> | [-> | [-> | ->]]]] by lia;
    vm_compute; discriminate.
Defined.

(** C9: the parser turns a grid without header marker into a statement
    with no position, not into an error. *)
Lemma no_header_parses_to_empty_statement :
  (forall k, k < length no_header_grid -> first_text_at no_header_grid k <> header_pattern)
  /\ parse_statement no_header_grid
     = {| account_number := u "A17"; positions := []; statement_date := None |}.
Proof.
  split.
  - intros k Hk. simpl in Hk.
    assert (k = 0 \/ k = 1 \/ k = 2 \/ k = 3 \/ k = 4) as [-> | [-> | [-> | [-> | ->]]]] by lia;
      vm_compute; discriminate.
  - vm_compute. reflexivity.
Qed.

(** * Further properties of the importer *)

(** ** Stripping keeps an infix *)

Lemma forallb_rev : forall (f : N -> bool) l, forallb f (rev l) = forallb f l.
Proof.
  intros f l. induction l as [|x l IH]; simpl; [reflexivity|].
  rewrite forallb_app, IH. simpl. destruct (f x), (forallb f l); reflexivity.
Qed.

(** [lstrip s] is [s] without a prefix of whitespace. *)
Lemma lstrip_split : forall s, exists a, s = a ++ lstrip s /\ forallb is_space a = true.
Proof.
  induction s as [|c s [a [Ha Hsp]]]; [exists []; auto|].
  simpl. destruct (is_space c) eqn:Ec.
  - exists (c :: a). simpl. rewrite Ec, Hsp, <- Ha. auto.
  - exists []. auto.
Qed.

(** [s.strip()] is an infix of [s] between two runs of whitespace. *)
Lemma strip_split : forall s, exists a b,
  s = a ++ strip s ++ b /\ forallb is_space a = true /\ forallb is_space b = true.
Proof.
  intros s. destruct (lstrip_split s) as [a [Ha Hsa]].
  unfold strip. remember (rev (lstrip s)) as t eqn:Et.
  destruct (lstrip_split t) as [b [Hb Hsb]].
  assert (E : lstrip s = rev t) by (rewrite Et, rev_involutive; reflexivity).
  exists a, (rev b). split; [|split; [exact Hsa | rewrite forallb_rev; exact Hsb]].
  rewrite Ha at 1. rewrite E. rewrite Hb at 1. rewrite rev_app_distr. reflexivity.
Qed.

Lemma lstrip_quote_split : forall s, exists a, s = a ++ lstrip_quote s.
Proof.
  induction s as [|c s [a Ha]]; [exists []; auto|].
  simpl. destruct (c =? 34)%N.
  - exists (c :: a). simpl. rewrite <- Ha. reflexivity.
  - exists []. reflexivity.
Qed.

Lemma strip_quote_chars_split : forall s, exists a b, s = a ++ strip_quote_chars s ++ b.
Proof.
  intros s. destruct (lstrip_quote_split s) as [a Ha].
  unfold strip_quote_chars. remember (rev (lstrip_quote s)) as t eqn:Et.
  destruct (lstrip_quote_split t) as [b Hb].
  assert (E : lstrip_quote s = rev t) by (rewrite Et, rev_involutive; reflexivity).
  exists a, (rev b).
  rewrite Ha at 1. rewrite E. rewrite Hb at 1. rewrite rev_app_distr. reflexivity.
Qed.

Lemma contains_infix : forall p a m b,
  contains p m = true -> contains p (a ++ m ++ b) = true.
Proof.
  intros p a m b H. apply contains_spec in H as [x [y ->]]. apply contains_spec.
  exists (a ++ x), (y ++ b). rewrite <- !app_assoc. reflexivity.
Qed.

Lemma contains_strip : forall p s, contains p (strip s) = true -> contains p s = true.
Proof.
  intros p s H. destruct (strip_split s) as [a [b [Hs _]]].
  rewrite Hs. apply contains_infix. exact H.
Qed.

Lemma contains_clean : forall p s,
  contains p (strip_quote_chars (strip s)) = true -> contains p s = true.
Proof.
  intros p s H. apply contains_strip.
  destruct (strip_quote_chars_split (strip s)) as [a [b Hs]].
  rewrite Hs. apply contains_infix. exact H.
Qed.

(** An occurrence of a text that starts and ends with a non-space
    character does not reach into surrounding whitespace. *)
Lemma contains_drop_space : forall p c l,
  is_space c = true -> is_space (hd 0%N p) = false -> p <> [] ->
  contains p (c :: l) = true -> contains p l = true.
Proof.
  intros p c l Hc Hp Hne H.
  change (contains p (c :: l)) with (startswith (c :: l) p || contains p l) in H.
  apply orb_true_iff in H as [H|H]; auto.
  destruct p as [|x p]; [congruence|]. simpl in H, Hp.
  apply andb_true_iff in H as [H _]. apply N.eqb_eq in H. subst. congruence.
Qed.

Lemma contains_drop_spaces : forall p a l,
  forallb is_space a = true -> is_space (hd 0%N p) = false -> p <> [] ->
  contains p (a ++ l) = true -> contains p l = true.
Proof.
  intros p a. induction a as [|c a IH]; simpl; intros l Ha Hp Hne H; auto.
  apply andb_true_iff in Ha as [H1 H2].
  apply IH; auto. eapply contains_drop_space; eauto.
Qed.

Lemma contains_rev : forall p s, contains p s = true -> contains (rev p) (rev s) = true.
Proof.
  intros p s H. apply contains_spec in H as [a [b ->]]. apply contains_spec.
  exists (rev b), (rev a). rewrite !rev_app_distr, <- !app_assoc. reflexivity.
Qed.

Lemma contains_inside_spaces : forall p a m b,
  forallb is_space a = true -> forallb is_space b = true -> p <> [] ->
  is_space (hd 0%N p) = false -> is_space (hd 0%N (rev p)) = false ->
  contains p (a ++ m ++ b) = true -> contains p m = true.
Proof.
  intros p a m b Ha Hb Hne H1 H2 H.
  apply contains_drop_spaces in H; auto.
  apply contains_rev in H. rewrite rev_app_distr in H.
  assert (Hne' : rev p <> []).
  { destruct p as [|x p]; [congruence|]. simpl. intros E.
    apply app_eq_nil in E as [_ E]. discriminate. }
  apply contains_drop_spaces in H; [| rewrite forallb_rev; exact Hb | exact H2 | exact Hne'].
  apply contains_rev in H. rewrite !rev_involutive in H. exact H.
Qed.

(** [str.lower] leaves whitespace unchanged. *)
Lemma lower_char_space : forall c, is_space c = true -> lower_char c = c.
Proof.
  intros c H. unfold is_space in H.
  repeat rewrite orb_true_iff in H. repeat rewrite andb_true_iff in H.
  rewrite ?N.leb_le, ?N.eqb_eq in H.
  unfold lower_char.
  destruct ((65 <=? c)%N && (c <=? 90)%N) eqn:E1;
    [apply andb_true_iff in E1; rewrite !N.leb_le in E1; lia|].
  destruct ((192 <=? c)%N && (c <=? 222)%N && negb (c =? 215)%N) eqn:E2;
    [apply andb_true_iff in E2 as [E2 _]; apply andb_true_iff in E2;
     rewrite !N.leb_le in E2; lia|].
  destruct ((1024 <=? c)%N && (c <=? 1039)%N) eqn:E3;
    [apply andb_true_iff in E3; rewrite !N.leb_le in E3; lia|].
  destruct ((1040 <=? c)%N && (c <=? 1071)%N) eqn:E4;
    [apply andb_true_iff in E4; rewrite !N.leb_le in E4; lia|].
  reflexivity.
Qed.

Lemma lower_spaces : forall a, forallb is_space a = true -> lower a = a.
Proof.
  induction a as [|c a IH]; simpl; intros H; [reflexivity|].
  apply andb_true_iff in H as [H1 H2]. rewrite (lower_char_space c H1), (IH H2). reflexivity.
Qed.

(** A lower-cased text contains a word without spaces at its ends exactly
    where its stripped text does. *)
Lemma contains_lower_strip : forall p s,
  p <> [] -> is_space (hd 0%N p) = false -> is_space (hd 0%N (rev p)) = false ->
  contains p (lower s) = true -> contains p (lower (strip s)) = true.
Proof.
  intros p s Hne H1 H2 H. destruct (strip_split s) as [a [b [Hs [Ha Hb]]]].
  rewrite Hs in H. unfold lower in H. rewrite !map_app in H.
  fold (lower a) (lower (strip s)) (lower b) in H.
  rewrite (lower_spaces a Ha), (lower_spaces b Hb) in H.
  exact (contains_inside_spaces p a _ b Ha Hb Hne H1 H2 H).
Qed.

(** ** Positions built from a row *)

Lemma text_eqb_false_neq : forall a b, text_eqb a b = false -> a <> b.
Proof. intros a b H E. apply text_eqb_eq in E. congruence. Qed.

Lemma create_position_fields : forall r p,
  create_position_from_row r = Some p ->
  issuer p = field r 0 [] /\ security_type p = field r 1 [] /\ isin p = field r 3 []
  /\ issuer p <> [] /\ isin p <> [] /\ (0 < quantity p)%N
  /\ match currency p with
     | Some c => c <> [] /\ c <> u "nan" /\ exists s, cell_at r 4 = Some s /\ c = strip s
     | None => True
     end.
Proof.
  intros r p H. unfold create_position_from_row in H.
  destruct (parse_quantity _) as [q|]; [|discriminate].
  destruct (text_eqb (field r 0 []) [] || text_eqb (field r 3 []) [] || (q <=? 0)%N) eqn:E;
    [discriminate|].
  injection H as <-. cbn [issuer security_type isin quantity currency].
  apply orb_false_iff in E as [E E3]. apply orb_false_iff in E as [E1 E2].
  split; [reflexivity|split; [reflexivity|split; [reflexivity|]]].
  split; [exact (text_eqb_false_neq _ _ E1)|].
  split; [exact (text_eqb_false_neq _ _ E2)|].
  split; [apply N.leb_gt in E3; exact E3|].
  destruct (cell_at r 4) as [s|] eqn:E4; [|exact I].
  destruct (text_eqb (strip s) [] || text_eqb (strip s) (u "nan")) eqn:Ec; [exact I|].
  apply orb_false_iff in Ec as [Ec1 Ec2].
  split; [exact (text_eqb_false_neq _ _ Ec1)|].
  split; [exact (text_eqb_false_neq _ _ Ec2)|].
  exists s. auto.
Qed.

(** ** The row loops of the two extraction passes *)

Lemma bond_rows_in : forall g idx p, In p (bond_rows g idx) ->
  exists i, In i idx /\ skip_row (nth i g []) = false
    /\ contains (u "облигац") (lower (py_str (cell_at (nth i g []) 1))) = true
    /\ create_position_from_row (nth i g []) = Some p.
Proof.
  intros g idx p. induction idx as [|i idx IH]; [simpl; tauto|].
  cbn [bond_rows]. destruct (skip_row (nth i g [])) eqn:Es.
  - intros H. destruct (IH H) as [j Hj]. exists j. simpl. tauto.
  - destruct (contains (u "облигац") (lower (py_str (cell_at (nth i g []) 1)))) eqn:Eb;
      cbn [negb].
    + destruct (create_position_from_row (nth i g [])) eqn:Ec.
      * intros [<- | H]; [exists i; simpl; auto|].
        destruct (IH H) as [j Hj]. exists j. simpl. tauto.
      * intros H. destruct (IH H) as [j Hj]. exists j. simpl. tauto.
    + intros H. destruct (IH H) as [j Hj]. exists j. simpl. tauto.
Qed.

Lemma stock_rows_in : forall g idx p, In p (stock_rows g idx) ->
  exists i, In i idx /\ skip_row (nth i g []) = false
    /\ contains (u "Итого") (py_str (cell_at (nth i g []) 0)) = false
    /\ create_position_from_row (nth i g []) = Some p.
Proof.
  intros g idx p. induction idx as [|i idx IH]; [simpl; tauto|].
  cbn [stock_rows]. destruct (skip_row (nth i g [])) eqn:Es.
  - intros H. destruct (IH H) as [j Hj]. exists j. simpl. tauto.
  - destruct (contains (u "Итого") (py_str (cell_at (nth i g []) 0))) eqn:Et;
      [simpl; tauto|].
    destruct (create_position_from_row (nth i g [])) eqn:Ec.
    + intros [<- | H]; [exists i; simpl; auto|].
      destruct (IH H) as [j Hj]. exists j. simpl. tauto.
    + intros H. destruct (IH H) as [j Hj]. exists j. simpl. tauto.
Qed.

Lemma extract_positions_in : forall g p, In p (extract_positions g) ->
  exists r, skip_row r = false /\ create_position_from_row r = Some p.
Proof.
  intros g p H. unfold extract_positions in H. apply in_app_or in H as [H|H].
  - unfold extract_bonds in H. destruct (find_section_start _ _); [|contradiction].
    apply bond_rows_in in H as [i [_ [Hs [_ Hc]]]]. eauto.
  - unfold extract_stocks_and_etfs in H. destruct (stocks_first_row g); [|contradiction].
    apply stock_rows_in in H as [i [_ [Hs [_ Hc]]]]. eauto.
Qed.

(** X1: every position of the bond pass is classified as a bond: the
    row's security-type cell passed the lower-cased ["облигац"] test, and
    stripping that cell for the position keeps the match. *)
Theorem extract_bonds_all_bonds : forall g p,
  In p (extract_bonds g) -> is_bond p = true.
Proof.
  intros g p H. unfold extract_bonds in H. destruct (find_section_start _ _); [|contradiction].
  apply bond_rows_in in H as [i [_ [_ [Hb Hc]]]].
  destruct (create_position_fields _ _ Hc) as [_ [Ht _]].
  unfold is_bond. rewrite Ht. unfold field.
  destruct (cell_at (nth i g []) 1) as [s|] eqn:E1.
  - apply contains_lower_strip; [discriminate | vm_compute; reflexivity
                                 | vm_compute; reflexivity | exact Hb].
  - vm_compute in Hb. discriminate.
Qed.

Lemma extract_bonds_all_bonds_witness :
  exists p, In p (extract_bonds bond_grid) /\ is_bond p = true.
Proof.
  assert (E0 : exists p ps, extract_bonds bond_grid = p :: ps)
    by (destruct (extract_bonds bond_grid) as [|p ps] eqn:E; [vm_compute in E; discriminate | eauto]).
  destruct E0 as [p [ps E]]. exists p. assert (H : In p (extract_bonds bond_grid)) by (rewrite E; left; reflexivity).
  split; [exact H | exact (extract_bonds_all_bonds bond_grid p H)].
Defined.

(** X2: every position of a parsed statement has a non-empty issuer and
    ISIN and a positive quantity, and its currency is either absent or a
    non-empty text other than ["nan"]. *)
Theorem parse_statement_positions_valid : forall g p,
  In p (positions (parse_statement g)) ->
  issuer p <> [] /\ isin p <> [] /\ (0 < quantity p)%N
  /\ match currency p with Some c => c <> [] /\ c <> u "nan" | None => True end.
Proof.
  intros g p H. apply extract_positions_in in H as [r [_ Hc]].
  destruct (create_position_fields _ _ Hc) as [_ [_ [_ [Hi [Hn [Hq Hcur]]]]]].
  split; [exact Hi|split; [exact Hn|split; [exact Hq|]]].
  destruct (currency p) as [c|]; [|exact I].
  destruct Hcur as [H1 [H2 _]]. split; [exact H1 | exact H2].
Qed.

Lemma parse_statement_positions_valid_witness :
  exists p, In p (positions (parse_statement bond_grid))
    /\ issuer p <> [] /\ isin p <> [] /\ (0 < quantity p)%N
    /\ match currency p with Some c => c <> [] /\ c <> u "nan" | None => True end.
Proof.
  assert (E0 : exists p ps, positions (parse_statement bond_grid) = p :: ps)
    by (destruct (positions (parse_statement bond_grid)) as [|p ps] eqn:E;
        [vm_compute in E; discriminate | eauto]).
  destruct E0 as [p [ps E]]. exists p. assert (H : In p (positions (parse_statement bond_grid)))
    by (rewrite E; left; reflexivity).
  split; [exact H | exact (parse_statement_positions_valid bond_grid p H)].
Defined.

Lemma create_position_issuer_cell : forall r p t,
  create_position_from_row r = Some p -> contains t (issuer p) = true ->
  contains t (py_str (cell_at r 0)) = true.
Proof.
  intros r p t Hc Ht. destruct (create_position_fields _ _ Hc) as [Hi [_ [_ [Hne _]]]].
  rewrite Hi in Ht, Hne. unfold field in Ht, Hne.
  destruct (cell_at r 0) as [s|]; [|congruence].
  apply contains_strip. exact Ht.
Qed.

(** X3: header rows never become positions: no parsed position has an
    issuer containing the header token ["Эмитент"], and no position of the
    stock pass has an issuer containing ["Итого"]. *)
Theorem parsed_issuer_not_header_or_total : forall g,
  (forall p, In p (extract_positions g) -> contains header_pattern (issuer p) = false)
  /\ (forall p, In p (extract_stocks_and_etfs g) -> contains (u "Итого") (issuer p) = false).
Proof.
  intros g. split.
  - intros p H. apply extract_positions_in in H as [r [Hs Hc]].
    destruct (contains header_pattern (issuer p)) eqn:E; [|reflexivity].
    apply (create_position_issuer_cell r p) in E; [|exact Hc].
    unfold skip_row in Hs. rewrite E, orb_true_r in Hs. discriminate.
  - intros p H. unfold extract_stocks_and_etfs in H.
    destruct (stocks_first_row g); [|contradiction].
    apply stock_rows_in in H as [i [_ [_ [Ht Hc]]]].
    destruct (contains (u "Итого") (issuer p)) eqn:E; [|reflexivity].
    apply (create_position_issuer_cell (nth i g []) p) in E; [|exact Hc]. congruence.
Qed.

(** X4: the stock pass stops at its first row that is not skipped and
    whose first cell contains ["Итого"]: the rows after it are never
    read. *)
Theorem stock_rows_stop_at_total : forall g idx1 i idx2,
  skip_row (nth i g []) = false ->
  contains (u "Итого") (py_str (cell_at (nth i g []) 0)) = true ->
  stock_rows g (idx1 ++ i :: idx2) = stock_rows g idx1.
Proof.
  intros g idx1 i idx2 Hs Ht.
  change (nth i g []) with (@nth row i g []) in Hs, Ht.
  induction idx1 as [|j idx1 IH]; cbn [stock_rows app].
  - rewrite Hs, Ht. reflexivity.
  - destruct (skip_row (@nth row j g [])); [exact IH|].
    destruct (contains (u "Итого") (py_str (cell_at (@nth row j g []) 0))); [reflexivity|].
    destruct (create_position_from_row (@nth row j g [])); rewrite IH; reflexivity.
Qed.

Lemma stock_rows_stop_at_total_witness :
  stock_rows [[txt "Итого"]; sber_row] ([] ++ 0%nat :: [1%nat])
  = stock_rows [[txt "Итого"]; sber_row] [].
Proof.
  apply (stock_rows_stop_at_total [[txt "Итого"]; sber_row] [] 0 [1]);
    vm_compute; reflexivity.
Defined.

(** X5: whitespace anywhere in a quantity cell is ignored: inserting a
    whitespace character never changes the parsed quantity. *)
Theorem parse_quantity_ignores_whitespace : forall a b c,
  is_space c = true -> parse_quantity (a ++ c :: b) = parse_quantity (a ++ b).
Proof.
  intros a b c Hc. unfold parse_quantity, remove_ws.
  rewrite !filter_app. cbn [filter]. rewrite Hc. reflexivity.
Qed.

Lemma parse_quantity_ignores_whitespace_witness :
  parse_quantity (u "1" ++ 32%N :: u "234") = parse_quantity (u "1" ++ u "234")
  /\ parse_quantity (u "1234") = Some 1234%N.
Proof.
  split; [apply parse_quantity_ignores_whitespace; vm_compute; reflexivity
         | vm_compute; reflexivity].
Defined.

(** ** Derived lists of a statement *)

Lemma is_etf_not_bond_stock : forall p,
  is_etf p = true -> is_bond p = false /\ is_stock p = false.
Proof.
  intros p H. unfold is_etf in H. apply text_eqb_eq in H.
  unfold is_bond, is_stock. rewrite H. vm_compute. auto.
Qed.

Lemma filter_disjoint_length : forall (f h : SecurityPosition -> bool) l,
  (forall x, h x = true -> f x = false) ->
  length (filter f l) + length (filter h l) <= length l.
Proof.
  intros f h l Hd. induction l as [|x l IH]; simpl; [lia|].
  destruct (h x) eqn:Eh.
  - rewrite (Hd x Eh). simpl. lia.
  - destruct (f x); simpl; lia.
Qed.

(** X6: an ETF position is never among the bonds or the stocks, so the
    bond count plus the ETF count, and the stock count plus the ETF count,
    never exceed the number of positions. *)
Theorem etfs_disjoint_counts : forall s : BrokerStatement,
  (forall p, In p (etfs s) -> ~ In p (bonds s) /\ ~ In p (stocks s))
  /\ length (bonds s) + length (etfs s) <= total_positions s
  /\ length (stocks s) + length (etfs s) <= total_positions s.
Proof.
  intros s. split; [|split].
  - intros p H. unfold etfs in H. apply filter_In in H as [_ He].
    destruct (is_etf_not_bond_stock p He) as [Hb Hs].
    unfold bonds, stocks. split; intros Hin; apply filter_In in Hin as [_ E]; congruence.
  - apply filter_disjoint_length. intros x Hx. apply is_etf_not_bond_stock, Hx.
  - apply filter_disjoint_length. intros x Hx. apply is_etf_not_bond_stock, Hx.
Qed.

(** ** Section search of the parser *)

Lemma find_seq_spec : forall (f : nat -> bool) n a,
  match find f (seq a n) with
  | Some b => a <= b < a + n /\ f b = true /\ (forall k, a <= k < b -> f k = false)
  | None => forall k, a <= k < a + n -> f k = false
  end.
Proof.
  intros f n. induction n as [|n IH]; intros a; simpl; [intros k; lia|].
  destruct (f a) eqn:Ea.
  - split; [lia|split; [exact Ea | intros k; lia]].
  - specialize (IH (S a)). destruct (find f (seq (S a) n)) as [b|].
    + destruct IH as [Hb [Hf Hk]]. split; [lia|split; [exact Hf|]].
      intros k Hk'. destruct (Nat.eq_dec k a) as [->|]; [exact Ea|apply Hk; lia].
    + intros k Hk'. destruct (Nat.eq_dec k a) as [->|]; [exact Ea|apply IH; lia].
Qed.

(** X7: from a start row inside the frame, [_find_section_end] returns a
    row between the start and the frame's length; no row from the start
    up to it ends the section, and the returned row ends the section
    unless it is the frame's length (nothing found). *)
Theorem find_section_end_bounds : forall g start,
  start <= length g ->
  start <= find_section_end g start <= length g
  /\ (forall k, start <= k < find_section_end g start ->
        section_end_row (nth k g []) = false)
  /\ (find_section_end g start < length g ->
        section_end_row (nth (find_section_end g start) g []) = true).
Proof.
  intros g start Hs. unfold find_section_end.
  pose proof (find_seq_spec (fun i => section_end_row (nth i g [])) (length g - start) start)
    as Hf.
  destruct (find _ _) as [b|].
  - destruct Hf as [Hb [Hfb Hk]]. split; [lia|split; [exact Hk | intros _; exact Hfb]].
  - split; [lia|split; [|lia]]. intros k Hk. apply Hf. lia.
Qed.

Lemma find_section_end_bounds_witness :
  (5 <= length sample_grid)
  /\ 5 <= find_section_end sample_grid 5 <= length sample_grid
  /\ find_section_end sample_grid 5 = 7.
Proof.
  split; [vm_compute; lia|split; [apply (find_section_end_bounds sample_grid 5); vm_compute; lia|]].
  vm_compute. reflexivity.
Defined.

Lemma find_row_from_spec : forall p rs i,
  match find_row_from p rs i with
  | Some j => i <= j < i + length rs /\ p (nth (j - i) rs []) = true
              /\ (forall k, i <= k < j -> p (nth (k - i) rs []) = false)
  | None => forall k, k < length rs -> p (nth k rs []) = false
  end.
Proof.
  intros p rs. induction rs as [|r rs IH]; intros i; simpl; [intros k Hk; lia|].
  destruct (p r) eqn:Er.
  - rewrite Nat.sub_diag. split; [lia|split; [exact Er | intros k; lia]].
  - specialize (IH (S i)). destruct (find_row_from p rs (S i)) as [j|].
    + destruct IH as [Hj [Hp Hk]]. split; [lia|split].
      * replace (j - i) with (S (j - S i)) by lia. exact Hp.
      * intros k Hk'. destruct (Nat.eq_dec k i) as [->|].
        -- rewrite Nat.sub_diag. exact Er.
        -- replace (k - i) with (S (k - S i)) by lia. apply Hk. lia.
    + intros [|k] Hk; [exact Er|]. apply IH. lia.
Qed.

(** X8: [_find_section_start] returns the first row having a text cell
    that contains the section name, and [None] only when no row of the
    frame has one. *)
Theorem find_section_start_first_match : forall g t,
  match find_section_start g t with
  | Some j => j < length g /\ row_has_text t (nth j g []) = true
              /\ (forall k, k < j -> row_has_text t (nth k g []) = false)
  | None => forall k, k < length g -> row_has_text t (nth k g []) = false
  end.
Proof.
  intros g t. unfold find_section_start.
  pose proof (find_row_from_spec (row_has_text t) g 0) as H.
  destruct (find_row_from _ _ _) as [j|]; [|exact H].
  destruct H as [Hj [Hp Hk]]. rewrite Nat.sub_0_r in Hp.
  split; [lia|split; [exact Hp|]].
  intros k Hk'. specialize (Hk k ltac:(lia)). rewrite Nat.sub_0_r in Hk. exact Hk.
Qed.

(** ** The section locator: one span per header marker *)

(** A span or open section [(l, s)] opened by the header marker in row
    [s - 1], with the label inferred for that row. *)
Definition opened_at (g : grid) (l : text) (s : nat) : Prop :=
  1 <= s /\ header_row g (s - 1) = true /\ l = infer_label g (s - 1).

Definition open_count (st : lstate) : nat :=
  match cur st with Some _ => 1 | None => 0 end.

Definition count_inv (g : grid) (n : nat) (st : lstate) : Prop :=
  length (secs st) + open_count st = length (filter (header_row g) (seq 0 n))
  /\ (forall x, In x (secs st) -> opened_at g (label x) (start_row x) /\ end_row x < n)
  /\ match cur st with Some (l, s) => opened_at g l s /\ s <= n | None => True end.

Lemma count_inv_step : forall g n st r,
  nth_error g n = Some r -> count_inv g n st ->
  count_inv g (S n) (locator_step g st n r).
Proof.
  intros g n st r Hr [Hc [Hs Hcur]].
  assert (Hh : header_row g n = text_eqb (first_text r) header_pattern)
    by (unfold header_row; rewrite (nth_error_first_text g n r Hr); reflexivity).
  unfold count_inv. rewrite seq_S, filter_app, Nat.add_0_l. cbn [filter].
  rewrite Hh, length_app. unfold open_count in *.
  unfold locator_step, close_current.
  destruct (text_eqb (first_text r) header_pattern) eqn:E.
  - cbn [secs cur length]. destruct (cur st) as [[l s]|].
    + destruct Hcur as [Hop Hsn]. rewrite length_app. cbn [length].
      split; [lia|split].
      * intros x Hx. apply in_app_or in Hx as [Hx | [<- | []]].
        -- destruct (Hs x Hx) as [Ho He]. split; [exact Ho | lia].
        -- cbn [label start_row end_row]. split; [exact Hop | lia].
      * split; [|lia]. unfold opened_at. rewrite Nat.sub_succ, Nat.sub_0_r.
        split; [lia|split; [exact Hh | reflexivity]].
    + split; [cbn [length] in *; lia|split].
      * intros x Hx. destruct (Hs x Hx) as [Ho He]. split; [exact Ho | lia].
      * split; [|lia]. unfold opened_at. rewrite Nat.sub_succ, Nat.sub_0_r.
        split; [lia|split; [exact Hh | reflexivity]].
  - cbn [length]. destruct (is_terminator (first_text r)).
    + destruct (cur st) as [[l s]|] eqn:Ec; cbn [secs cur].
      * destruct Hcur as [Hop Hsn]. rewrite length_app. cbn [length].
        split; [lia|split; [|exact I]].
        intros x Hx. apply in_app_or in Hx as [Hx | [<- | []]].
        -- destruct (Hs x Hx) as [Ho He]. split; [exact Ho | lia].
        -- cbn [label start_row end_row]. split; [exact Hop | lia].
      * rewrite Ec. split; [lia|split; [|exact I]].
        intros x Hx. destruct (Hs x Hx) as [Ho He]. split; [exact Ho | lia].
    + split; [lia|split].
      * intros x Hx. destruct (Hs x Hx) as [Ho He]. split; [exact Ho | lia].
      * destruct (cur st) as [[l s]|]; [|exact I]. destruct Hcur. split; [assumption | lia].
Qed.

Lemma count_inv_st_at : forall g n, n <= length g -> count_inv g n (st_at g n).
Proof.
  intros g n. induction n as [|n IH]; intros Hn.
  - unfold st_at, count_inv, open_count. simpl. split; [reflexivity|split; [tauto|exact I]].
  - destruct (nth_error_lt g n) as [r Hr]; [lia|].
    rewrite (st_at_S g n r Hr). apply count_inv_step; [exact Hr | apply IH; lia].
Qed.

Lemma last_data_row_lt : forall g s, 1 <= s <= length g -> last_data_row g s < length g.
Proof.
  intros g s Hs. unfold last_data_row.
  destruct (find _ _) as [j|] eqn:Hf; [|lia].
  apply find_some in Hf as [Hin _]. apply in_rev, in_seq in Hin. lia.
Qed.

Lemma find_table_sections_headers : forall g,
  length (find_table_sections g) = length (filter (header_row g) (seq 0 (length g)))
  /\ (forall sp, In sp (find_table_sections g) ->
        opened_at g (label sp) (start_row sp) /\ end_row sp < length g).
Proof.
  intros g. rewrite find_table_sections_st_at.
  destruct (count_inv_st_at g (length g) (le_n _)) as [Hc [Hs Hcur]].
  unfold finish, open_count in *.
  destruct (cur (st_at g (length g))) as [[l s]|].
  - destruct Hcur as [Hop Hsn]. rewrite length_app. cbn [length]. split; [lia|].
    intros sp Hsp. apply in_app_or in Hsp as [Hx | [<- | []]]; [exact (Hs sp Hx)|].
    cbn [label start_row end_row]. split; [exact Hop|].
    apply last_data_row_lt. destruct Hop. lia.
  - split; [lia | exact Hs].
Qed.

(** X9: the locator returns exactly one span per row whose first cell is
    the header marker ["Эмитент"]. *)
Theorem find_table_sections_one_per_header : forall g,
  length (find_table_sections g) = length (filter (header_row g) (seq 0 (length g))).
Proof. intros g. exact (proj1 (find_table_sections_headers g)). Qed.

(** X10: every span starts right after a header-marker row, carries the
    label inferred for that row, and ends at a row of the frame. *)
Theorem find_table_sections_span_shape : forall g sp,
  In sp (find_table_sections g) ->
  1 <= start_row sp /\ header_row g (start_row sp - 1) = true
  /\ label sp = infer_label g (start_row sp - 1) /\ end_row sp < length g.
Proof.
  intros g sp H. destruct (proj2 (find_table_sections_headers g) sp H) as [[H1 [H2 H3]] H4].
  auto.
Qed.

Lemma find_table_sections_span_shape_witness :
  In (mk_span (u "Сведения о ценных бумагах, Classica") 6 6) (find_table_sections sample_grid)
  /\ (1 <= start_row (mk_span (u "Сведения о ценных бумагах, Classica") 6 6)
      /\ header_row sample_grid
           (start_row (mk_span (u "Сведения о ценных бумагах, Classica") 6 6) - 1) = true
      /\ label (mk_span (u "Сведения о ценных бумагах, Classica") 6 6)
         = infer_label sample_grid
             (start_row (mk_span (u "Сведения о ценных бумагах, Classica") 6 6) - 1)
      /\ end_row (mk_span (u "Сведения о ценных бумагах, Classica") 6 6) < length sample_grid).
Proof.
  assert (E : find_table_sections sample_grid
              = [mk_span (u "Сведения о ценных бумагах, Classica") 6 6])
    by (vm_compute; reflexivity).
  assert (H : In (mk_span (u "Сведения о ценных бумагах, Classica") 6 6)
                 (find_table_sections sample_grid)) by (rewrite E; left; reflexivity).
  exact (conj H (find_table_sections_span_shape sample_grid _ H)).
Defined.

(** X11: [merge_csv_tables] succeeds exactly when some row's first cell
    is the header marker; otherwise it raises the [ValueError]. *)
Theorem merge_csv_tables_ok_iff_header : forall g,
  (exists rows, merge_csv_tables g = MergeOk rows)
  <-> exists j, j < length g /\ header_row g j = true.
Proof.
  intros g. pose proof (proj1 (find_table_sections_headers g)) as Hlen.
  unfold merge_csv_tables.
  destruct (find_table_sections g) as [|sp sps] eqn:E.
  - split; [intros [rows H]; discriminate|]. intros [j [Hj Hh]]. exfalso.
    assert (Hin : In j (filter (header_row g) (seq 0 (length g))))
      by (apply filter_In; split; [apply in_seq; lia | exact Hh]).
    destruct (filter (header_row g) (seq 0 (length g))); [contradiction | discriminate].
  - split; [intros _ | eauto].
    destruct (filter (header_row g) (seq 0 (length g))) as [|j js] eqn:F; [discriminate|].
    assert (Hin : In j (filter (header_row g) (seq 0 (length g)))) by (rewrite F; left; auto).
    apply filter_In in Hin as [Hin Hh]. apply in_seq in Hin. exists j. split; [lia | exact Hh].
Qed.

(** ** extract_table_data: the rows written *)

Lemma section_rows_in : forall g name idx out,
  In out (section_rows g name idx) ->
  exists i, In i idx /\ isna (cell_at (nth i g []) 0) = false
    /\ contains (u "Итого") (py_str (cell_at (nth i g []) 0)) = false
    /\ out = table_row (nth i g []) name.
Proof.
  intros g name idx out. induction idx as [|i idx IH]; [simpl; tauto|].
  cbn [section_rows].
  destruct (isna (cell_at (@nth row i g []) 0) || text_eqb (strip (py_str (cell_at (@nth row i g []) 0))) [])
    eqn:E1.
  - intros H. destruct (IH H) as [j Hj]. exists j. simpl. tauto.
  - destruct (contains (u "Итого") (py_str (cell_at (@nth row i g []) 0))) eqn:E2.
    + intros H. destruct (IH H) as [j Hj]. exists j. simpl. tauto.
    + apply orb_false_iff in E1 as [E1 _]. intros [<- | H].
      * exists i. simpl. auto.
      * destruct (IH H) as [j Hj]. exists j. simpl. tauto.
Qed.

(** Where an output row of [extract_table_data] comes from. *)
Definition table_row_origin (g : grid) (sections : list span) (out : list text) : Prop :=
  exists sp i, In sp sections /\ start_row sp <= i <= end_row sp /\ i < length g
    /\ out = table_row (nth i g []) (label sp)
    /\ length out = 7 /\ last out [] = label sp
    /\ isna (cell_at (nth i g []) 0) = false
    /\ contains (u "Итого") (hd [] out) = false.

(** X12: every row written by [extract_table_data] is the cleaned row [i]
    of the frame for a section [sp] with [start_row sp <= i <= end_row sp]
    and [i] inside the frame; it has seven columns, the last one the
    section's label, its source row has a non-NaN first cell, and its
    first column does not contain ["Итого"]. *)
Theorem extract_table_data_rows : forall g sections out,
  In out (extract_table_data g sections) -> table_row_origin g sections out.
Proof.
  intros g sections out H. unfold extract_table_data in H.
  apply in_flat_map in H as [sp [Hsp Hout]].
  apply section_rows_in in Hout as [i [Hi [Hna [Ht ->]]]].
  apply in_seq in Hi.
  exists sp, i. split; [exact Hsp|]. split; [lia|]. split; [lia|].
  split; [reflexivity|]. split.
  { unfold table_row. rewrite length_app, length_map, length_seq. reflexivity. }
  split; [unfold table_row; apply last_last|]. split; [exact Hna|].
  change (hd [] (table_row (nth i g []) (label sp))) with (clean_cell (cell_at (nth i g []) 0)).
  destruct (cell_at (nth i g []) 0) as [s|]; [|discriminate].
  destruct (contains (u "Итого") (clean_cell (Some s))) eqn:E; [|reflexivity].
  apply contains_clean in E. cbn [py_str] in Ht. congruence.
Qed.

Lemma extract_table_data_rows_witness :
  In [u "Сбер"; u "Обычная акция"; u "SBER03"; u "RU0009029540"; [];
      u "100"; u "Сведения о ценных бумагах, Classica"]
     (extract_table_data sample_grid (find_table_sections sample_grid))
  /\ table_row_origin sample_grid (find_table_sections sample_grid)
       [u "Сбер"; u "Обычная акция"; u "SBER03"; u "RU0009029540"; [];
        u "100"; u "Сведения о ценных бумагах, Classica"].
Proof.
  assert (E : extract_table_data sample_grid (find_table_sections sample_grid)
              = [[u "Сбер"; u "Обычная акция"; u "SBER03"; u "RU0009029540"; [];
                  u "100"; u "Сведения о ценных бумагах, Classica"]])
    by (vm_compute; reflexivity).
  assert (H : In [u "Сбер"; u "Обычная акция"; u "SBER03"; u "RU0009029540"; [];
                  u "100"; u "Сведения о ценных бумагах, Classica"]
                 (extract_table_data sample_grid (find_table_sections sample_grid)))
    by (rewrite E; left; reflexivity).
  exact (conj H (extract_table_data_rows _ _ _ H)).
Defined.

(** ** The API converters and the file check *)

Lemma filter_map_length : forall (f : SecurityPositionResponse -> bool)
  (h : SecurityPosition -> SecurityPositionResponse) l,
  length (filter f (map h l)) = length (filter (fun x => f (h x)) l).
Proof.
  intros f h l. induction l as [|x l IH]; simpl; [reflexivity|].
  destruct (f (h x)); simpl; rewrite IH; reflexivity.
Qed.

(** X13: the counts of the upload response agree with its own list of
    positions (the total is its length; the bond, stock and ETF counts are
    the numbers of positions flagged [is_bond], [is_stock], [is_etf]) and
    with the counts of the validate endpoint for the same statement. *)
Theorem statement_response_counts : forall s : BrokerStatement,
  resp_total_positions (convert_statement_to_response s)
    = length (resp_positions (convert_statement_to_response s))
  /\ bonds_count (convert_statement_to_response s)
     = length (filter resp_is_bond (resp_positions (convert_statement_to_response s)))
  /\ stocks_count (convert_statement_to_response s)
     = length (filter resp_is_stock (resp_positions (convert_statement_to_response s)))
  /\ etfs_count (convert_statement_to_response s)
     = length (filter resp_is_etf (resp_positions (convert_statement_to_response s)))
  /\ resp_total_positions (convert_statement_to_response s) = vs_total_positions (validate_statement s)
  /\ bonds_count (convert_statement_to_response s) = vs_bonds (validate_statement s)
  /\ stocks_count (convert_statement_to_response s) = vs_stocks (validate_statement s)
  /\ etfs_count (convert_statement_to_response s) = vs_etfs (validate_statement s).
Proof.
  intros s. cbn [resp_total_positions bonds_count stocks_count etfs_count resp_positions
                 convert_statement_to_response vs_total_positions vs_bonds vs_stocks vs_etfs
                 validate_statement].
  rewrite !filter_map_length, length_map. cbn [resp_is_bond resp_is_stock resp_is_etf
                                               convert_position_to_response].
  repeat split.
Qed.

Lemma endswith_spec : forall s p, endswith s p = true <-> exists r, s = r ++ p.
Proof.
  intros s p. unfold endswith. rewrite startswith_spec. split.
  - intros [r Hr]. exists (rev r).
    rewrite <- (rev_involutive s), Hr, rev_app_distr, rev_involutive. reflexivity.
  - intros [r ->]. exists (rev r). rewrite rev_app_distr. reflexivity.
Qed.

(** X14: the file check of the upload and validate endpoints lets a
    filename through exactly when it ends with [.xls] or [.xlsx] (compared
    case-sensitively); a missing filename and every other name are
    rejected with status 400. *)
Theorem rejects_filename_spec : forall filename,
  rejects_filename filename = false <->
  exists stem, filename = Some (stem ++ u ".xls") \/ filename = Some (stem ++ u ".xlsx").
Proof.
  intros [f|]; cbn [rejects_filename].
  - rewrite orb_false_iff, negb_false_iff, orb_true_iff, !endswith_spec. split.
    + intros [_ [[r ->] | [r ->]]]; exists r; [left | right]; reflexivity.
    + intros [stem [H | H]]; injection H as ->.
      * split; [destruct stem; reflexivity|]. left. exists stem. reflexivity.
      * split; [destruct stem; reflexivity|]. right. exists stem. reflexivity.
  - split; [discriminate|]. intros [stem [H | H]]; discriminate.
Qed.

(** ** Section labels: the rule of the code *)

(** X16: a header marker in row [i] opens a section labelled
    [infer_label g i].  Row 0 gets ["Unknown"].  When the first cell of
    row [i - 1] is not blank after stripping, it is the label (stripped,
    with enclosing double quotes removed), whatever its text.  Otherwise
    the label comes from the topmost row [j] of the window
    [max(0, i-3) .. i-1] whose first cell is not blank and starts neither
    with the header token nor with ["Итого"]; with no such row it is
    ["Unknown"]. *)
Theorem header_label_rule :
  (forall g st i r, first_text r = header_pattern ->
     cur (locator_step g st i r) = Some (infer_label g i, S i))
  /\ (forall g, infer_label g 0 = unknown_label)
  /\ (forall g i, strip (first_text_at g i) <> [] ->
        infer_label g (S i) = strip_quotes (strip (first_text_at g i)))
  /\ (forall g i, strip (first_text_at g i) = [] ->
        (exists j, S i - 3 <= j <= i /\ window_candidate (first_text_at g j) = true
                   /\ (forall k, S i - 3 <= k < j -> window_candidate (first_text_at g k) = false)
                   /\ infer_label g (S i) = strip_quotes (strip (first_text_at g j)))
        \/ ((forall j, S i - 3 <= j <= i -> window_candidate (first_text_at g j) = false)
            /\ infer_label g (S i) = unknown_label))
  /\ (forall m, strip_quotes ([34%N] ++ m ++ [34%N]) = m).
Proof.
  split; [|split; [|split; [|split]]].
  - intros g st i r H. unfold locator_step. rewrite H. reflexivity.
  - intros g. reflexivity.
  - intros g i H. unfold infer_label. simpl Nat.ltb.
    replace (S i - 1) with i by lia.
    destruct (first_text_at g i) as [|c t] eqn:E; [contradiction|].
    rewrite (text_eqb_neq _ _ H). reflexivity.
  - intros g i H. unfold infer_label. simpl Nat.ltb.
    replace (S i - 1) with i by lia. rewrite H.
    replace (negb (text_eqb (first_text_at g i) []) && negb (text_eqb [] [])) with false
      by (rewrite andb_false_r; reflexivity).
    pose proof (find_seq_spec (fun j => window_candidate (first_text_at g j))
                  (S i - (S i - 3)) (S i - 3)) as Hf.
    destruct (find _ _) as [j|].
    + left. destruct Hf as [Hj [Hc Hk]].
      exists j. split; [lia|]. split; [exact Hc|]. split; [exact Hk | reflexivity].
    + right. split; [|reflexivity]. intros j Hj. apply Hf. lia.
  - exact strip_quotes_enclosed.
Qed.
